(** * Verification of the clinical application auditor (audit_application.py)

    A shallow embedding of [ClinicalAppAuditor] and of [main]: the issue
    model, the thirteen rule checks, the scorer, the fix generator and the
    iteration loop, followed by the properties proved about them.

    Modelling conventions.
    - Python [int] is [Z]; Python [str] is [string] (text is taken to be
      ASCII, so the character classes of [re] and the methods of [str] are
      the ASCII ones).
    - [pass_rate] is a Python [float]; it is modelled by the exact rational
      [Q] it approximates.  [pass_rate_float] below is the same expression
      over binary64 numbers, used to check the documented values.
    - [self.results] is the state of a state-and-exception monad [M]; an
      exception leaves the mutations made before it in place, as in Python.
    - [print] calls are not modelled. *)

From Stdlib Require Import PrimFloat Uint63.
From Stdlib Require Import List String Ascii ZArith QArith Qminmax Lia Bool Arith.
Import ListNotations.
Local Open Scope string_scope.
Local Open Scope Z_scope.

(** ** Data model *)

Inductive Severity : Type := CRITICAL | HIGH | MEDIUM | LOW.

Definition Severity_eqb (a b : Severity) : bool :=
  match a, b with
  | CRITICAL, CRITICAL | HIGH, HIGH | MEDIUM, MEDIUM | LOW, LOW => true
  | _, _ => false
  end.

(** [Severity.value] *)
Definition Severity_value (s : Severity) : string :=
  match s with
  | CRITICAL => "CRITICAL" | HIGH => "HIGH" | MEDIUM => "MEDIUM" | LOW => "LOW"
  end.

Record Issue : Type := mkIssue {
  file_path : string;
  line_number : Z;
  severity : Severity;
  category : string;
  description : string;
  fix_suggestion : string;
  code_snippet : string
}.

Record AuditResults : Type := mkResults {
  issues : list Issue;
  total_files_scanned : Z;
  pass_rate : Q;
  critical_count : Z;
  high_count : Z;
  medium_count : Z;
  low_count : Z
}.

(** [AuditResults()]: every field at its dataclass default. *)
Definition AuditResults_new : AuditResults :=
  mkResults [] 0 0%Q 0 0 0 0.

Definition set_issues (l : list Issue) (r : AuditResults) : AuditResults :=
  mkResults l (total_files_scanned r) (pass_rate r)
            (critical_count r) (high_count r) (medium_count r) (low_count r).

Definition set_pass_rate (q : Q) (r : AuditResults) : AuditResults :=
  mkResults (issues r) (total_files_scanned r) q
            (critical_count r) (high_count r) (medium_count r) (low_count r).

(** ** The scorer: [_calculate_results] *)

(** One turn of the counting loop (lines 698-706). *)
Definition count_issue (r : AuditResults) (i : Issue) : AuditResults :=
  match severity i with
  | CRITICAL =>
      mkResults (issues r) (total_files_scanned r) (pass_rate r)
                (critical_count r + 1) (high_count r) (medium_count r) (low_count r)
  | HIGH =>
      mkResults (issues r) (total_files_scanned r) (pass_rate r)
                (critical_count r) (high_count r + 1) (medium_count r) (low_count r)
  | MEDIUM =>
      mkResults (issues r) (total_files_scanned r) (pass_rate r)
                (critical_count r) (high_count r) (medium_count r + 1) (low_count r)
  | LOW =>
      mkResults (issues r) (total_files_scanned r) (pass_rate r)
                (critical_count r) (high_count r) (medium_count r) (low_count r + 1)
  end.

(** [max(0, x)]: Python keeps the first argument unless a later one is
    strictly greater. *)
Definition py_max0 (x : Q) : Q :=
  if Qlt_le_dec 0 x then x else 0%Q.

Definition calculate_results (r : AuditResults) : AuditResults :=
  let total_issues := Z.of_nat (List.length (issues r)) in
  let r1 := fold_left count_issue (issues r) r in
  let critical_high := critical_count r1 + high_count r1 in
  if total_issues =? 0
  then set_pass_rate 100%Q r1
  else set_pass_rate
         (py_max0 (inject_Z (total_issues - critical_high) / inject_Z total_issues * 100)%Q)
         r1.

(** The same pass-rate expression over binary64 floating-point numbers
    (integers below 2^53 in absolute value convert exactly). *)
Definition float_of_Z (z : Z) : float :=
  if z <? 0 then PrimFloat.opp (PrimFloat.of_uint63 (Uint63.of_Z (- z)))
  else PrimFloat.of_uint63 (Uint63.of_Z z).

Definition pass_rate_float (total_issues critical_high : Z) : float :=
  if total_issues =? 0 then 100%float
  else
    let x := PrimFloat.mul
               (PrimFloat.div (float_of_Z (total_issues - critical_high))
                              (float_of_Z total_issues))
               100%float in
    if PrimFloat.ltb 0%float x then x else 0%float.

(** ** Python [str] operations used by the checks (ASCII text) *)

Definition chr (n : nat) : ascii := ascii_of_nat n.
Definition ord (c : ascii) : nat := nat_of_ascii c.
Definition newline : ascii := chr 10.
Definition dquote : ascii := chr 34.

Definition in_range (lo hi : nat) (c : ascii) : bool :=
  (lo <=? ord c)%nat && (ord c <=? hi)%nat.

(** [str.isspace] on one ASCII character: TAB..CR, FS..US and the space. *)
Definition py_isspace (c : ascii) : bool :=
  in_range 9 13 c || in_range 28 32 c.

Definition is_upper (c : ascii) : bool := in_range 65 90 c.
Definition is_lower (c : ascii) : bool := in_range 97 122 c.
Definition is_digit (c : ascii) : bool := in_range 48 57 c.

(** [s.startswith(p)] *)
Definition startswith (s p : string) : bool := String.prefix p s.

(** [sub in s] for strings *)
Fixpoint str_in (sub s : string) : bool :=
  String.prefix sub s ||
  match s with
  | EmptyString => false
  | String _ s' => str_in sub s'
  end.

(** [s.split(sep)] for a one-character separator *)
Fixpoint split (sep : ascii) (s : string) : list string :=
  match s with
  | EmptyString => [EmptyString]
  | String c s' =>
      if Ascii.eqb c sep then EmptyString :: split sep s'
      else match split sep s' with
           | h :: t => String c h :: t
           | [] => [String c EmptyString]
           end
  end.

(** [s.split('\n')] *)
Definition split_lines : string -> list string := split newline.

Fixpoint lstrip (s : string) : string :=
  match s with
  | String c s' => if py_isspace c then lstrip s' else s
  | EmptyString => EmptyString
  end.

Fixpoint rstrip (s : string) : string :=
  match s with
  | String c s' =>
      match rstrip s' with
      | EmptyString => if py_isspace c then EmptyString else String c EmptyString
      | t => String c t
      end
  | EmptyString => EmptyString
  end.

(** [s.strip()] *)
Definition strip (s : string) : string := rstrip (lstrip s).

Definition map_string (f : ascii -> ascii) : string -> string :=
  fix go (s : string) : string :=
    match s with
    | EmptyString => EmptyString
    | String c s' => String (f c) (go s')
    end.

(** [s.lower()] and [s.upper()] *)
Definition lower : string -> string :=
  map_string (fun c => if is_upper c then chr (ord c + 32) else c).
Definition upper : string -> string :=
  map_string (fun c => if is_lower c then chr (ord c - 32) else c).

(** [sep.join(l)] *)
Fixpoint join (sep : string) (l : list string) : string :=
  match l with
  | [] => EmptyString
  | [a] => a
  | a :: t => a ++ sep ++ join sep t
  end.

(** [int(s)] on a run of decimal digits, as matched by [\d+]. *)
Definition int_of_digits (s : string) : Z :=
  (fix go (acc : Z) (s : string) : Z :=
     match s with
     | EmptyString => acc
     | String c s' => go (10 * acc + Z.of_nat (ord c - 48)) s'
     end) 0 s.

(** [str(n)] for a non-negative [int] below 10^fuel. *)
Fixpoint digits_of (fuel : nat) (n : Z) (acc : string) : string :=
  match fuel with
  | O => acc
  | S f =>
      let acc' := String (chr (48 + Z.to_nat (n mod 10))) acc in
      if n / 10 =? 0 then acc' else digits_of f (n / 10) acc'
  end.

Definition str_of_int (n : Z) : string :=
  if n <? 0 then "-" ++ digits_of (S (Z.to_nat (Z.log2 (- n)))) (- n) ""
  else digits_of (S (Z.to_nat (Z.log2 n))) n "".

(** [enumerate(l, start)] *)
Fixpoint enumerate {A : Type} (start : Z) (l : list A) : list (Z * A) :=
  match l with
  | [] => []
  | a :: t => (start, a) :: enumerate (start + 1) t
  end.

(** ** A backtracking matcher for the patterns the checks pass to [re]

    Every repetition in the source's patterns is over a single character
    class, which is what [Rep] provides; groups are numbered as in the
    pattern.  Alternatives and repetitions are tried in Python's order
    (leftmost alternative first, greedy longest first, lazy shortest
    first). *)
Module Re.

Inductive regex : Type :=
| Lit (s : string)
| Class (p : ascii -> bool)
| Rep (greedy : bool) (min : nat) (p : ascii -> bool)
| Seq (a b : regex)
| Alt (a b : regex)
| Group (n : nat) (a : regex)
| WordBoundary.

Definition captures : Type := list (nat * string).

(** [\d], [\s], [\w], [.] (without and with DOTALL) *)
Definition digit : ascii -> bool := is_digit.
Definition space : ascii -> bool := py_isspace.
Definition word (c : ascii) : bool :=
  is_upper c || is_lower c || is_digit c || Ascii.eqb c "_".
Definition dot (c : ascii) : bool := negb (Ascii.eqb c newline).
Definition dotall (c : ascii) : bool := true.
(** The class of the two quote characters, written [Q] below, and its
    complement [^Q]. *)
Definition quote (c : ascii) : bool := Ascii.eqb c "'" || Ascii.eqb c dquote.
Definition not_quote (c : ascii) : bool := negb (quote c).

Fixpoint cat (l : list regex) : regex :=
  match l with
  | [] => Lit EmptyString
  | [a] => a
  | a :: t => Seq a (cat t)
  end.

Fixpoint alts (l : list string) : regex :=
  match l with
  | [] => Class (fun _ => false)
  | [a] => Lit a
  | a :: t => Alt (Lit a) (alts t)
  end.

Fixpoint eat (lit s : string) (prev : option ascii) : option (option ascii * string) :=
  match lit with
  | EmptyString => Some (prev, s)
  | String c lit' =>
      match s with
      | String d s' => if Ascii.eqb c d then eat lit' s' (Some d) else None
      | EmptyString => None
      end
  end.

Fixpoint rep {R : Type} (greedy : bool) (p : ascii -> bool) (min : nat)
    (prev : option ascii) (s : string)
    (k : option ascii -> string -> option R) : option R :=
  let stop := match min with O => k prev s | S _ => None end in
  match s with
  | String c s' =>
      if p c then
        if greedy then
          match rep greedy p (Nat.pred min) (Some c) s' k with
          | Some x => Some x
          | None => stop
          end
        else
          match stop with
          | Some x => Some x
          | None => rep greedy p (Nat.pred min) (Some c) s' k
          end
      else stop
  | EmptyString => stop
  end.

Definition is_word (c : option ascii) : bool :=
  match c with Some c => word c | None => false end.

Definition first_char (s : string) : option ascii :=
  match s with String c _ => Some c | EmptyString => None end.

(** The text consumed between [s] and its suffix [s']. *)
Definition consumed (s s' : string) : string :=
  substring 0 (String.length s - String.length s') s.

Fixpoint run {R : Type} (r : regex) (prev : option ascii) (s : string)
    (caps : captures)
    (k : option ascii -> string -> captures -> option R) : option R :=
  match r with
  | Lit l =>
      match eat l s prev with
      | Some (prev', s') => k prev' s' caps
      | None => None
      end
  | Class p =>
      match s with
      | String c s' => if p c then k (Some c) s' caps else None
      | EmptyString => None
      end
  | Rep g m p => rep g p m prev s (fun prev' s' => k prev' s' caps)
  | Seq a b => run a prev s caps (fun prev' s' caps' => run b prev' s' caps' k)
  | Alt a b =>
      match run a prev s caps k with
      | Some x => Some x
      | None => run b prev s caps k
      end
  | Group n a =>
      run a prev s caps
          (fun prev' s' caps' => k prev' s' ((n, consumed s s') :: caps'))
  | WordBoundary =>
      if xorb (is_word prev) (is_word (first_char s)) then k prev s caps else None
  end.

(** A match: the whole matched text, the groups, and what follows it. *)
Record found : Type := mkFound {
  whole : string;
  groups : captures;
  last_char : option ascii;
  rest : string
}.

Definition at_start (r : regex) (prev : option ascii) (s : string) : option found :=
  run r prev s [] (fun p' s' caps => Some (mkFound (consumed s s') caps p' s')).

(** [m.group(n)] *)
Fixpoint group (n : nat) (caps : captures) : string :=
  match caps with
  | [] => EmptyString
  | (m, v) :: t => if Nat.eqb m n then v else group n t
  end.

(** [re.match(pattern, s)] *)
Definition match_ (r : regex) (s : string) : option found := at_start r None s.

Fixpoint search_from (r : regex) (prev : option ascii) (s : string) : option found :=
  match at_start r prev s with
  | Some m => Some m
  | None =>
      match s with
      | String c s' => search_from r (Some c) s'
      | EmptyString => None
      end
  end.

(** [re.search(pattern, s)] *)
Definition search (r : regex) (s : string) : option found := search_from r None s.

Fixpoint findall_from (fuel : nat) (r : regex) (prev : option ascii) (s : string)
  : list found :=
  match fuel with
  | O => []
  | S fuel' =>
      let step :=
        match s with
        | String c s' => findall_from fuel' r (Some c) s'
        | EmptyString => []
        end in
      match at_start r prev s with
      | Some m =>
          if (String.length (rest m) <? String.length s)%nat
          then m :: findall_from fuel' r (last_char m) (rest m)
          else m :: step
      | None => step
      end
  end.

(** [re.findall(pattern, s)], as the list of non-overlapping matches. *)
Definition findall (r : regex) (s : string) : list found :=
  findall_from (S (String.length s)) r None s.

End Re.

(** ** Paths ([pathlib.Path] on a POSIX system, no symbolic links) *)

Record Path : Type := mkPath {
  anchored : bool;          (* starts at the root directory *)
  parts : list string       (* the components after the root *)
}.

Definition is_component (c : string) : bool :=
  negb (String.eqb c "" || String.eqb c ".").

(** [Path(s)]: empty and [.] components are dropped. *)
Definition Path_of_str (s : string) : Path :=
  mkPath (startswith s "/") (filter is_component (split "/" s)).

(** [a / b] *)
Definition joinpath (a b : Path) : Path :=
  if anchored b then b else mkPath (anchored a) (parts a ++ parts b)%list.

(** [str(p)] *)
Definition Path_str (p : Path) : string :=
  if anchored p then "/" ++ join "/" (parts p)
  else match parts p with
       | [] => "."
       | _ => join "/" (parts p)
       end.

(** [p.parent] *)
Definition parent (p : Path) : Path :=
  mkPath (anchored p) (removelast (parts p)).

(** [p.name] *)
Definition name (p : Path) : string := last (parts p) "".

(** [s.rfind('.')] *)
Fixpoint rfind_dot (s : string) : option nat :=
  match s with
  | EmptyString => None
  | String c s' =>
      match rfind_dot s' with
      | Some i => Some (S i)
      | None => if Ascii.eqb c "." then Some O else None
      end
  end.

(** [p.suffix], computed on the name: the last dot and what follows it,
    unless that dot starts or ends the name. *)
Definition suffix_of (nm : string) : string :=
  match rfind_dot nm with
  | Some i =>
      if (0 <? i)%nat && (i <? String.length nm - 1)%nat
      then substring i (String.length nm - i) nm
      else ""
  | None => ""
  end.

Record exn : Type := mkExn {
  exn_type : string;
  exn_msg : string           (* [str(e)] *)
}.

Inductive outcome (A : Type) : Type :=
| Ret (a : A)
| Raise (e : exn).
Arguments Ret {A} a.
Arguments Raise {A} e.

(** [p.with_suffix(suffix)]: replaces the suffix of the name when it has
    one and appends otherwise; a path without a name raises. *)
Definition with_suffix (p : Path) (suffix : string) : outcome Path :=
  let nm := name p in
  if String.eqb nm "" then
    Raise (mkExn "ValueError" ("PosixPath('" ++ Path_str p ++ "') has an empty name"))
  else
    let old_suffix := suffix_of nm in
    let nm' :=
      if String.eqb old_suffix "" then nm ++ suffix
      else substring 0 (String.length nm - String.length old_suffix) nm ++ suffix in
    Ret (mkPath (anchored p) (removelast (parts p) ++ [nm'])%list).

Definition normalize (comps : list string) : list string :=
  fold_left (fun acc c => if String.eqb c ".." then removelast acc else (acc ++ [c])%list)
            comps [].

(** [p.resolve()] in working directory [cwd] *)
Definition resolve (cwd : list string) (p : Path) : Path :=
  mkPath true (normalize (if anchored p then parts p else (cwd ++ parts p)%list)).

(** ** JSON values as [json.load] builds them *)

Set Warnings "-register-all".
Inductive json : Type :=
| JNull
| JBool (b : bool)
| JInt (z : Z)
| JFloat (q : Q)
| JStr (s : string)
| JArr (l : list json)
| JObj (kv : list (string * json)).

(** [type(v).__name__] *)
Definition py_type_name (v : json) : string :=
  match v with
  | JNull => "NoneType" | JBool _ => "bool" | JInt _ => "int" | JFloat _ => "float"
  | JStr _ => "str" | JArr _ => "list" | JObj _ => "dict"
  end.

(** Lookup in a [dict] built by [json.load]: of two equal keys the later
    one is kept. *)
Fixpoint dict_get (key : string) (kv : list (string * json)) : option json :=
  match kv with
  | [] => None
  | (k, v) :: t =>
      match dict_get key t with
      | Some v' => Some v'
      | None => if String.eqb k key then Some v else None
      end
  end.

(** [v.get(key, default)] *)
Definition py_get (v : json) (key : string) (default : json) : outcome json :=
  match v with
  | JObj kv => Ret (match dict_get key kv with Some x => x | None => default end)
  | _ => Raise (mkExn "AttributeError"
                  ("'" ++ py_type_name v ++ "' object has no attribute 'get'"))
  end.

(** [{**a, **b}]: the entries of both, [b] last. *)
Definition py_merge (a b : json) : outcome (list (string * json)) :=
  match a, b with
  | JObj ka, JObj kb => Ret (ka ++ kb)%list
  | JObj _, _ => Raise (mkExn "TypeError" ("'" ++ py_type_name b ++ "' object is not a mapping"))
  | _, _ => Raise (mkExn "TypeError" ("'" ++ py_type_name a ++ "' object is not a mapping"))
  end.

Definition json_is_str (key : string) (v : json) : bool :=
  match v with JStr s => String.eqb s key | _ => false end.

(** [key in v] for a string [key] *)
Definition py_in (key : string) (v : json) : outcome bool :=
  match v with
  | JObj kv => Ret (existsb (fun e => String.eqb (fst e) key) kv)
  | JArr l => Ret (existsb (json_is_str key) l)
  | JStr s => Ret (str_in key s)
  | _ => Raise (mkExn "TypeError"
                  ("argument of type '" ++ py_type_name v ++ "' is not iterable"))
  end.

(** [v == True] *)
Definition py_eq_True (v : json) : bool :=
  match v with
  | JBool b => b
  | JInt z => z =? 1
  | JFloat q => Qeq_bool q 1
  | _ => false
  end.

(** ** The project as the auditor finds it *)

Inductive node : Type :=
| Dir
| File (read : outcome string).   (* what [open(p)] and [f.read()] give *)

Record World : Type := mkWorld {
  root_path : Path;                         (* [Path(root_path)] *)
  cwd : list string;                        (* the working directory *)
  fs : list (list string * node);           (* absolute paths, in listing order *)
  tsc : outcome (Z * string);               (* [subprocess.run]: return code and stderr *)
  json_loads : string -> outcome json       (* the parser behind [json.load] *)
}.

Fixpoint list_eqb (a b : list string) : bool :=
  match a, b with
  | [], [] => true
  | x :: a', y :: b' => String.eqb x y && list_eqb a' b'
  | _, _ => false
  end.

Fixpoint fs_lookup (p : list string) (l : list (list string * node)) : option node :=
  match l with
  | [] => None
  | (q, n) :: t => if list_eqb p q then Some n else fs_lookup p t
  end.

(** [p.exists()] *)
Definition Path_exists (w : World) (p : Path) : bool :=
  match parts (resolve (cwd w) p) with
  | [] => true
  | a => match fs_lookup a (fs w) with Some _ => true | None => false end
  end.

(** [with open(p) as f: f.read()] *)
Definition read_text (w : World) (p : Path) : outcome string :=
  match parts (resolve (cwd w) p) with
  | [] => Raise (mkExn "IsADirectoryError" ("[Errno 21] Is a directory: '" ++ Path_str p ++ "'"))
  | a =>
      match fs_lookup a (fs w) with
      | Some (File o) => o
      | Some Dir =>
          Raise (mkExn "IsADirectoryError" ("[Errno 21] Is a directory: '" ++ Path_str p ++ "'"))
      | None =>
          Raise (mkExn "FileNotFoundError"
                   ("[Errno 2] No such file or directory: '" ++ Path_str p ++ "'"))
      end
  end.

(** [fnmatch] for patterns whose only wildcard is the star. *)
Fixpoint fnmatch (pat nm : string) : bool :=
  match pat with
  | EmptyString => String.eqb nm ""
  | String c pat' =>
      if Ascii.eqb c "*" then
        (fix star (n : string) : bool :=
           fnmatch pat' n ||
           match n with
           | String _ n' => star n'
           | EmptyString => false
           end) nm
      else
        match nm with
        | String d nm' => Ascii.eqb c d && fnmatch pat' nm'
        | EmptyString => false
        end
  end.

Fixpoint strip_prefix (pre l : list string) : option (list string) :=
  match pre, l with
  | [], _ => Some l
  | x :: pre', y :: l' => if String.eqb x y then strip_prefix pre' l' else None
  | _ :: _, [] => None
  end.

(** The entries below [base], as paths relative to it, in listing order. *)
Definition entries_below (w : World) (base : Path) : list (list string) :=
  flat_map (fun e =>
              match strip_prefix (parts (resolve (cwd w) base)) (fst e) with
              | Some (x :: rel) => [x :: rel]
              | _ => []
              end) (fs w).

(** [base.rglob(pattern)]: every pattern of the source is a name pattern
    behind directory wildcards, so an entry at any depth matches when its
    name does. *)
Definition rglob (w : World) (base : Path) (pattern : string) : list Path :=
  map (fun rel => joinpath base (mkPath false rel))
      (filter (fun rel => fnmatch (last (split "/" pattern) "") (last rel ""))
              (entries_below w base)).

(** [base.glob(pattern)] for a pattern of one component: direct children. *)
Definition glob (w : World) (base : Path) (pattern : string) : list Path :=
  map (fun rel => joinpath base (mkPath false rel))
      (filter (fun rel => (List.length rel =? 1)%nat && fnmatch pattern (last rel ""))
              (entries_below w base)).

(** ** The monad of the auditor's methods *)

Definition M (A : Type) : Type := AuditResults -> outcome A * AuditResults.

Definition ret {A : Type} (a : A) : M A := fun r => (Ret a, r).

Definition raise {A : Type} (e : exn) : M A := fun r => (Raise e, r).

Definition bind {A B : Type} (m : M A) (k : A -> M B) : M B :=
  fun r =>
    match m r with
    | (Ret a, r') => k a r'
    | (Raise e, r') => (Raise e, r')
    end.

(** A library call that returns or raises without touching [self]. *)
Definition lift {A : Type} (o : outcome A) : M A := fun r => (o, r).

(** [try: body  except Exception as e: handler(e)] *)
Definition try_except {A : Type} (body : M A) (handler : exn -> M A) : M A :=
  fun r =>
    match body r with
    | (Ret a, r') => (Ret a, r')
    | (Raise e, r') => handler e r'
    end.

Declare Scope audit_scope.
Delimit Scope audit_scope with audit.
Notation "x <- c ;; k" := (bind c (fun x => k))
  (at level 61, c at next level, right associativity) : audit_scope.
Notation "c ;; k" := (bind c (fun _ => k))
  (at level 61, right associativity) : audit_scope.
Local Open Scope audit_scope.

(** [for x in l: body(x)] *)
Fixpoint for_each {A : Type} (l : list A) (body : A -> M unit) : M unit :=
  match l with
  | [] => ret tt
  | x :: t => body x ;; for_each t body
  end.

(** [if c: body] *)
Definition when (c : bool) (body : M unit) : M unit :=
  if c then body else ret tt.

Definition _add_issue (file_path : string) (line_number : Z) (severity : Severity)
    (category description fix_suggestion : string) : M unit :=
  fun r =>
    (Ret tt,
     set_issues (issues r ++
                 [mkIssue file_path line_number severity category description
                          fix_suggestion EmptyString])%list r).

(** ** The auditor's constants ([__init__]) *)

Definition brand_colors : list (string * string) :=
  [("ivory", "#F2F3F1"); ("sage", "#8EA58C"); ("moss", "#738A6E");
   ("evergreen", "#344C3D"); ("french_blue", "#88A5BC")].

Definition forbidden_colors : list string :=
  ["#ff"; "#00"; "#blue"; "#red"; "#green"; "#yellow"; "#purple"; "#pink";
   "blue-"; "red-"; "green-"; "yellow-"; "purple-"; "pink-"; "indigo-"; "violet-"].

Definition typescript_patterns : list string :=
  ["**/*.ts"; "**/*.tsx"; "**/*.js"; "**/*.jsx"].
Definition style_patterns : list string :=
  ["**/*.css"; "**/*.scss"; "**/*.sass"].

(** [str(l)] for a list of strings without quotes or backslashes *)
Definition repr_list (l : list string) : string :=
  "[" ++ join ", " (map (fun v => "'" ++ v ++ "'") l) ++ "]".

(** ** The patterns of the checks, in source order

    In the comments [Q] is the source's class of the single and the double
    quote and [^Q] its complement. *)
Module Pat.
Import Re.

(** [(.+?)\((\d+),\d+\): error TS\d+: (.+)] *)
Definition ts_error : regex :=
  cat [Group 1 (Rep false 1 dot); Lit "("; Group 2 (Rep true 1 digit); Lit ",";
       Rep true 1 digit; Lit "): error TS"; Rep true 1 digit; Lit ": ";
       Group 3 (Rep true 1 dot)].

Definition http_method : regex := alts ["get"; "post"; "put"; "delete"].

(** [app\.(get|post|put|delete)\(Q(^Q+)Q] *)
Definition app_route : regex :=
  cat [Lit "app."; Group 1 http_method; Lit "("; Class quote;
       Group 2 (Rep true 1 not_quote); Class quote].

(** [router\.(get|post|put|delete)\(Q(^Q+)Q] *)
Definition router_route : regex :=
  cat [Lit "router."; Group 1 http_method; Lit "("; Class quote;
       Group 2 (Rep true 1 not_quote); Class quote].

(** [queryKey:\s*\[Q(^Q+)Q] *)
Definition query_key : regex :=
  cat [Lit "queryKey:"; Rep true 0 space; Lit "["; Class quote;
       Group 1 (Rep true 1 not_quote); Class quote].

(** [from Q(^Q+)Q] *)
Definition import_from : regex :=
  cat [Lit "from "; Class quote; Group 1 (Rep true 1 not_quote); Class quote].

(** [export default] *)
Definition export_default : regex := Lit "export default".

(** [import.*from.*] *)
Definition import_line : regex :=
  cat [Lit "import"; Rep true 0 dot; Lit "from"; Rep true 0 dot].

(** [if.*use[A-Z]] *)
Definition if_hook : regex :=
  cat [Lit "if"; Rep true 0 dot; Lit "use"; Class is_upper].

(** [use[A-Z].*\?\s*] *)
Definition hook_ternary : regex :=
  cat [Lit "use"; Class is_upper; Rep true 0 dot; Lit "?"; Rep true 0 space].

(** [useEffect\((.*?)\[(.*?)\]] with DOTALL *)
Definition use_effect : regex :=
  cat [Lit "useEffect("; Group 1 (Rep false 0 dotall); Lit "[";
       Group 2 (Rep false 0 dotall); Lit "]"].

(** [:\s*any\b] *)
Definition any_type : regex :=
  cat [Lit ":"; Rep true 0 space; Lit "any"; WordBoundary].

(** [function\s+\w+\([^)]*\)\s*{] *)
Definition function_decl : regex :=
  cat [Lit "function"; Rep true 1 space; Rep true 1 word; Lit "(";
       Rep true 0 (fun c => negb (Ascii.eqb c ")")); Lit ")"; Rep true 0 space;
       Lit "{"].

(** [className=Q^Q*(?:bg-|text-|border-)(blue|red|green|yellow|purple|pink|indigo|violet)^Q*Q] *)
Definition color_class : regex :=
  cat [Lit "className="; Class quote; Rep true 0 not_quote;
       alts ["bg-"; "text-"; "border-"];
       Group 1 (alts ["blue"; "red"; "green"; "yellow"; "purple"; "pink";
                      "indigo"; "violet"]);
       Rep true 0 not_quote; Class quote].

(** [process\.env\.([A-Z_]+)] *)
Definition env_var : regex :=
  cat [Lit "process.env.";
       Group 1 (Rep true 1 (fun c => is_upper c || Ascii.eqb c "_"))].

End Pat.

Definition found_group (n : nat) (m : Re.found) : string :=
  Re.group n (Re.groups m).

Definition is_found (m : option Re.found) : bool :=
  match m with Some _ => true | None => false end.

(** ** The rule checks *)

Definition _parse_typescript_error (error_line : string) : M unit :=
  match Re.match_ Pat.ts_error error_line with
  | Some m =>
      let file_path := found_group 1 m in
      let line_num := found_group 2 m in
      let message := found_group 3 m in
      _add_issue file_path (int_of_digits line_num) CRITICAL
        "TypeScript" ("Compilation error: " ++ message)
        "Fix TypeScript syntax and type errors"
  | None => ret tt
  end.

Definition _check_typescript_compilation (w : World) : M unit :=
  try_except
    (result <- lift (tsc w) ;;
     let '(returncode, stderr) := result in
     when (negb (returncode =? 0))
       (let errors := split_lines stderr in
        for_each errors (fun error =>
          when (negb (String.eqb (strip error) "") && negb (startswith error "Found"))
            (_parse_typescript_error error))))
    (fun e =>
       _add_issue "tsconfig.json" 0 CRITICAL
         "TypeScript" ("Failed to run TypeScript compiler: " ++ exn_msg e)
         "Ensure TypeScript is properly installed and configured").

Definition required_deps : list string :=
  ["@types/react"; "@types/react-dom"; "typescript";
   "drizzle-orm"; "@tanstack/react-query"; "wouter"].

Definition has_key (key : string) (kv : list (string * json)) : bool :=
  existsb (fun e => String.eqb (fst e) key) kv.

Definition _check_missing_dependencies (w : World) : M unit :=
  let package_json_path := joinpath (root_path w) (Path_of_str "package.json") in
  if negb (Path_exists w package_json_path) then
    _add_issue "package.json" 0 CRITICAL
      "Dependencies" "package.json not found"
      "Create package.json with proper dependencies"
  else
    try_except
      (text <- lift (read_text w package_json_path) ;;
       package_data <- lift (json_loads w text) ;;
       deps <- lift (py_get package_data "dependencies" (JObj [])) ;;
       dev_deps <- lift (py_get package_data "devDependencies" (JObj [])) ;;
       dependencies <- lift (py_merge deps dev_deps) ;;
       for_each required_deps (fun dep =>
         when (negb (has_key dep dependencies))
           (_add_issue "package.json" 0 HIGH
              "Dependencies" ("Missing required dependency: " ++ dep)
              ("Add " ++ dep ++ " to dependencies or devDependencies"))))
      (fun e =>
         _add_issue "package.json" 0 CRITICAL
           "Dependencies" ("Failed to parse package.json: " ++ exn_msg e)
           "Fix package.json syntax").

Definition _check_database_schema_consistency (w : World) : M unit :=
  let schema_path :=
    joinpath (joinpath (root_path w) (Path_of_str "shared")) (Path_of_str "schema.ts") in
  if negb (Path_exists w schema_path) then
    _add_issue "shared/schema.ts" 0 CRITICAL
      "Database" "Database schema file not found"
      "Create shared/schema.ts with Drizzle schema definitions"
  else
    try_except
      (content <- lift (read_text w schema_path) ;;
       when (negb (str_in "export const" content))
         (_add_issue "shared/schema.ts" 0 HIGH
            "Database" "No table exports found in schema"
            "Add proper table exports") ;;
       when (negb (str_in "export type" content))
         (_add_issue "shared/schema.ts" 0 MEDIUM
            "Database" "No type exports found in schema"
            "Add proper type exports for InsertUser, User, etc."))
      (fun e =>
         _add_issue "shared/schema.ts" 0 HIGH
           "Database" ("Failed to read schema file: " ++ exn_msg e)
           "Fix schema file accessibility").

Definition _check_server_routes (w : World) (routes_path : Path) : M unit :=
  try_except
    (content <- lift (read_text w routes_path) ;;
     let route_patterns := [Pat.app_route; Pat.router_route] in
     let routes :=
       flat_map (fun pattern =>
                   map (fun m => (upper (found_group 1 m), found_group 2 m))
                       (Re.findall pattern content))
                route_patterns in
     for_each routes (fun '(method, path) =>
       when (negb (startswith path "/api/"))
         (_add_issue (Path_str routes_path) 0 MEDIUM
            "API Routes" ("Route " ++ path ++ " doesn't follow /api/ convention")
            "Update route to start with /api/")))
    (fun e =>
       _add_issue (Path_str routes_path) 0 HIGH
         "API Routes" ("Failed to parse routes file: " ++ exn_msg e)
         "Fix routes file syntax").

Definition client_dir (w : World) : Path :=
  joinpath (joinpath (root_path w) (Path_of_str "client")) (Path_of_str "src").

Definition _check_client_api_calls (w : World) : M unit :=
  if negb (Path_exists w (client_dir w)) then ret tt
  else
    for_each (rglob w (client_dir w) "*.tsx") (fun file_path =>
      try_except
        (content <- lift (read_text w file_path) ;;
         let queries := map (found_group 1) (Re.findall Pat.query_key content) in
         for_each queries (fun query =>
           when (negb (startswith query "/api/"))
             (_add_issue (Path_str file_path) 0 MEDIUM
                "API Calls" ("Query key " ++ query ++ " doesn't follow /api/ convention")
                "Update query key to start with /api/")))
        (fun _ => ret tt)).

Definition _check_api_route_consistency (w : World) : M unit :=
  let routes_path :=
    joinpath (joinpath (root_path w) (Path_of_str "server")) (Path_of_str "routes.ts") in
  when (Path_exists w routes_path) (_check_server_routes w routes_path) ;;
  _check_client_api_calls w.

(** The list [possible_files] built for one import (lines 334-340); the
    two calls of [with_suffix] may raise. *)
Definition possible_files_of (resolved_path : Path) : outcome (list Path) :=
  match with_suffix resolved_path ".ts" with
  | Raise e => Raise e
  | Ret with_ts =>
      match with_suffix resolved_path ".tsx" with
      | Raise e => Raise e
      | Ret with_tsx =>
          Ret [resolved_path; with_ts; with_tsx;
               joinpath resolved_path (Path_of_str "index.ts");
               joinpath resolved_path (Path_of_str "index.tsx")]
      end
  end.

Definition _check_file_imports (w : World) (file_path : Path) : M unit :=
  try_except
    (content <- lift (read_text w file_path) ;;
     let lines := split_lines content in
     for_each (enumerate 1 lines) (fun '(i, line) =>
       let line := strip line in
       if startswith line "import" && str_in "from" line then
         match Re.search Pat.import_from line with
         | Some import_match =>
             let import_path := found_group 1 import_match in
             if startswith import_path "./" || startswith import_path "../" then
               let resolved_path :=
                 resolve (cwd w) (joinpath (parent file_path) (Path_of_str import_path)) in
               possible_files <- lift (possible_files_of resolved_path) ;;
               when (negb (existsb (Path_exists w) possible_files))
                 (_add_issue (Path_str file_path) i HIGH
                    "Imports" ("Import path not found: " ++ import_path)
                    "Fix import path or create missing file")
             else ret tt
         | None => ret tt
         end
       else ret tt))
    (fun _ => ret tt).

(** The loop shared by the checks over [typescript_patterns]; files under
    [node_modules] are skipped. *)
Definition for_typescript_files (w : World) (body : Path -> M unit) : M unit :=
  for_each typescript_patterns (fun pattern =>
    for_each (rglob w (root_path w) pattern) (fun file_path =>
      if str_in "node_modules" (Path_str file_path) then ret tt
      else body file_path)).

Definition _check_import_export_issues (w : World) : M unit :=
  for_typescript_files w (_check_file_imports w).

Definition _check_react_component (w : World) (file_path : Path) : M unit :=
  try_except
    (content <- lift (read_text w file_path) ;;
     when (negb (is_found (Re.search Pat.export_default content)))
       (_add_issue (Path_str file_path) 0 MEDIUM
          "React" "Component missing default export"
          "Add default export for React component") ;;
     let import_lines := map Re.whole (Re.findall Pat.import_line content) in
     for_each import_lines (fun import_line =>
       when (str_in "React" import_line && str_in "import React" import_line)
         (when (negb (str_in "React." content) && negb (str_in "createElement" content))
            (_add_issue (Path_str file_path) 0 LOW
               "React" "Unnecessary React import (using JSX transform)"
               "Remove explicit React import"))))
    (fun _ => ret tt).

Definition _check_component_structure (w : World) : M unit :=
  if negb (Path_exists w (client_dir w)) then ret tt
  else for_each (rglob w (client_dir w) "*.tsx") (_check_react_component w).

Definition _check_hooks_in_file (w : World) (file_path : Path) : M unit :=
  try_except
    (content <- lift (read_text w file_path) ;;
     let lines := split_lines content in
     for_each (enumerate 1 lines) (fun '(i, line) =>
       when (is_found (Re.search Pat.if_hook line)
             || is_found (Re.search Pat.hook_ternary line))
         (_add_issue (Path_str file_path) i HIGH
            "React Hooks" "Hook called conditionally"
            "Move hook call outside conditional logic")) ;;
     let useeffect_blocks := Re.findall Pat.use_effect content in
     for_each useeffect_blocks (fun _ => ret tt))
    (fun _ => ret tt).

Definition _check_react_hooks_usage (w : World) : M unit :=
  if negb (Path_exists w (client_dir w)) then ret tt
  else for_each (rglob w (client_dir w) "*.tsx") (_check_hooks_in_file w).

Definition _check_types_in_file (w : World) (file_path : Path) : M unit :=
  try_except
    (content <- lift (read_text w file_path) ;;
     let lines := split_lines content in
     for_each (enumerate 1 lines) (fun '(i, line) =>
       let line := strip line in
       when (is_found (Re.search Pat.any_type line)
             && negb (str_in "// @ts-ignore" line))
         (_add_issue (Path_str file_path) i MEDIUM
            "Type Safety" "Using 'any' type"
            "Replace 'any' with specific type") ;;
       when (is_found (Re.search Pat.function_decl line))
         (when (negb (str_in "):" line))
            (_add_issue (Path_str file_path) i LOW
               "Type Safety" "Function missing return type"
               "Add explicit return type to function"))))
    (fun _ => ret tt).

Definition _check_type_safety (w : World) : M unit :=
  for_typescript_files w (_check_types_in_file w).

Definition _check_colors_in_css (w : World) (file_path : Path) : M unit :=
  try_except
    (content <- lift (read_text w file_path) ;;
     let lines := split_lines content in
     for_each (enumerate 1 lines) (fun '(i, line) =>
       for_each forbidden_colors (fun forbidden =>
         when (str_in forbidden (lower line))
           (_add_issue (Path_str file_path) i MEDIUM
              "Brand Colors" ("Non-brand color found: " ++ forbidden)
              ("Replace with brand colors: " ++ repr_list (map snd brand_colors))))))
    (fun _ => ret tt).

Definition _check_colors_in_tsx (w : World) (file_path : Path) : M unit :=
  try_except
    (content <- lift (read_text w file_path) ;;
     let color_classes := map (found_group 1) (Re.findall Pat.color_class content) in
     for_each color_classes (fun color_class =>
       _add_issue (Path_str file_path) 0 MEDIUM
         "Brand Colors" ("Non-brand Tailwind color: " ++ color_class)
         "Replace with brand color classes or custom styles"))
    (fun _ => ret tt).

Definition _check_brand_color_compliance (w : World) : M unit :=
  for_each style_patterns (fun pattern =>
    for_each (rglob w (root_path w) pattern) (_check_colors_in_css w)) ;;
  for_typescript_files w (_check_colors_in_tsx w).

Definition _check_tsconfig (w : World) (tsconfig_path : Path) : M unit :=
  try_except
    (text <- lift (read_text w tsconfig_path) ;;
     config <- lift (json_loads w text) ;;
     compiler_options <- lift (py_get config "compilerOptions" (JObj [])) ;;
     strict <- lift (py_get compiler_options "strict" JNull) ;;
     when (negb (py_eq_True strict))
       (_add_issue (Path_str tsconfig_path) 0 MEDIUM
          "Configuration" "TypeScript strict mode not enabled"
          "Enable strict mode in compilerOptions") ;;
     has_paths <- lift (py_in "paths" compiler_options) ;;
     when (negb has_paths)
       (_add_issue (Path_str tsconfig_path) 0 LOW
          "Configuration" "No path mappings configured"
          "Add path mappings for cleaner imports"))
    (fun e =>
       _add_issue (Path_str tsconfig_path) 0 HIGH
         "Configuration" ("Failed to parse tsconfig.json: " ++ exn_msg e)
         "Fix JSON syntax in tsconfig.json").

Definition required_scripts : list string := ["dev"; "build"; "start"].

Definition _check_package_scripts (w : World) (package_path : Path) : M unit :=
  try_except
    (text <- lift (read_text w package_path) ;;
     package_data <- lift (json_loads w text) ;;
     scripts <- lift (py_get package_data "scripts" (JObj [])) ;;
     for_each required_scripts (fun script =>
       present <- lift (py_in script scripts) ;;
       when (negb present)
         (_add_issue (Path_str package_path) 0 LOW
            "Configuration" ("Missing " ++ script ++ " script")
            ("Add " ++ script ++ " script to package.json"))))
    (fun _ => ret tt).

Definition _check_configuration_files (w : World) : M unit :=
  let tsconfig_path := joinpath (root_path w) (Path_of_str "tsconfig.json") in
  (if Path_exists w tsconfig_path then _check_tsconfig w tsconfig_path
   else
     _add_issue "tsconfig.json" 0 HIGH
       "Configuration" "tsconfig.json not found"
       "Create tsconfig.json with proper TypeScript configuration") ;;
  let package_json_path := joinpath (root_path w) (Path_of_str "package.json") in
  when (Path_exists w package_json_path) (_check_package_scripts w package_json_path).

Definition _check_env_vars_in_file (w : World) (file_path : Path) : M unit :=
  try_except
    (content <- lift (read_text w file_path) ;;
     let env_vars := map (found_group 1) (Re.findall Pat.env_var content) in
     when (str_in "client/src" (Path_str file_path))
       (for_each env_vars (fun var =>
          when (negb (startswith var "VITE_"))
            (_add_issue (Path_str file_path) 0 HIGH
               "Environment" ("Frontend env var " ++ var ++ " missing VITE_ prefix")
               ("Rename to VITE_" ++ var ++ " or use import.meta.env")))))
    (fun _ => ret tt).

Definition _check_environment_variables (w : World) : M unit :=
  for_typescript_files w (_check_env_vars_in_file w).

Definition _check_quality_in_file (w : World) (file_path : Path) : M unit :=
  try_except
    (content <- lift (read_text w file_path) ;;
     let lines := split_lines content in
     for_each (enumerate 1 lines) (fun '(i, line) =>
       when (str_in "console.log" line && negb (str_in "// @keep" line))
         (_add_issue (Path_str file_path) i LOW
            "Code Quality" "console.log found"
            "Remove console.log or replace with proper logging") ;;
       when (str_in "TODO" (upper line) || str_in "FIXME" (upper line))
         (_add_issue (Path_str file_path) i LOW
            "Code Quality" "TODO/FIXME comment found"
            "Complete or remove TODO/FIXME comment")))
    (fun _ => ret tt).

Definition _check_code_quality (w : World) : M unit :=
  for_typescript_files w (_check_quality_in_file w).

Definition _check_documentation (w : World) : M unit :=
  let readme_files := glob w (root_path w) "README*" in
  match readme_files with
  | [] =>
      _add_issue "README.md" 0 LOW
        "Documentation" "README file not found"
        "Create README.md with project documentation"
  | _ :: _ => ret tt
  end.

(** [_calculate_results] as a method *)
Definition _calculate_results : M unit :=
  fun r => (Ret tt, calculate_results r).

(** [return self.results] *)
Definition get_results : M AuditResults := fun r => (Ret r, r).

Definition run_audit (w : World) : M AuditResults :=
  (* Critical checks first *)
  _check_typescript_compilation w ;;
  _check_missing_dependencies w ;;
  _check_database_schema_consistency w ;;
  _check_api_route_consistency w ;;
  (* High priority checks *)
  _check_import_export_issues w ;;
  _check_component_structure w ;;
  _check_react_hooks_usage w ;;
  _check_type_safety w ;;
  (* Medium priority checks *)
  _check_brand_color_compliance w ;;
  _check_configuration_files w ;;
  _check_environment_variables w ;;
  (* Low priority checks *)
  _check_code_quality w ;;
  _check_documentation w ;;
  _calculate_results ;;
  get_results.

(** The thirteen checks in the order [run_audit] calls them. *)
Definition rule_checks : list (World -> M unit) :=
  [_check_typescript_compilation; _check_missing_dependencies;
   _check_database_schema_consistency; _check_api_route_consistency;
   _check_import_export_issues; _check_component_structure;
   _check_react_hooks_usage; _check_type_safety;
   _check_brand_color_compliance; _check_configuration_files;
   _check_environment_variables; _check_code_quality; _check_documentation].

(** ** Fix generation *)

Definition _generate_fix_command (issue : Issue) : option string :=
  if String.eqb (category issue) "TypeScript" && str_in "Missing" (description issue)
  then Some ("# Fix missing dependency: " ++ description issue)
  else if String.eqb (category issue) "Imports" && str_in "not found" (description issue)
  then Some ("# Fix import path in " ++ file_path issue ++ ":"
             ++ str_of_int (line_number issue))
  else if String.eqb (category issue) "Brand Colors"
  then Some ("# Update colors in " ++ file_path issue ++ " to use brand palette")
  else None.

(** [l.index(x)]; every [Severity.value] occurs in the list it is used on. *)
Fixpoint list_index (x : string) (l : list string) : nat :=
  match l with
  | [] => O
  | y :: t => if String.eqb y x then O else S (list_index x t)
  end.

Fixpoint insert_by {A : Type} (key : A -> nat) (x : A) (l : list A) : list A :=
  match l with
  | [] => [x]
  | y :: t => if (key x <=? key y)%nat then x :: y :: t else y :: insert_by key x t
  end.

(** [sorted(l, key=key)]: a stable sort. *)
Definition sorted {A : Type} (key : A -> nat) (l : list A) : list A :=
  fold_right (insert_by key) [] l.

Definition severity_key (x : Issue) : nat :=
  list_index (Severity_value (severity x)) ["CRITICAL"; "HIGH"; "MEDIUM"; "LOW"].

Definition is_critical_or_high (x : Issue) : bool :=
  existsb (Severity_eqb (severity x)) [CRITICAL; HIGH].

(** One turn of the loop of [generate_fixes]: what it appends to [fixes]. *)
Definition fix_for (issue : Issue) : list string :=
  if is_critical_or_high issue then
    match _generate_fix_command issue with
    | Some fix_command => if String.eqb fix_command "" then [] else [fix_command]
    | None => []
    end
  else [].

Definition generate_fixes (r : AuditResults) : list string :=
  let sorted_issues := sorted severity_key (issues r) in
  flat_map fix_for sorted_issues.

(** ** The iteration loop of [main]

    [worlds i] is the project as iteration [i] finds it.  The loop is
    written for any value of the local [max_iterations], which [main] sets
    to 5.  The report renderer and the report files are not modelled. *)

(** How [main] ends: it returns [success] after [runs] calls of
    [run_audit], the last of which gave [results]; or an exception leaves
    it; [Unfinished] stands for a loop that is still running when the fuel
    is used up. *)
Inductive main_result : Type :=
| Exit (success : bool) (runs : nat) (results : AuditResults)
| Crash (e : exn) (runs : nat)
| Unfinished.

(** [results.pass_rate >= 100.0] *)
Definition converged (r : AuditResults) : bool := Qle_bool 100 (pass_rate r).

(** The code after the loop; [results] is unbound when the loop body
    never ran. *)
Definition after_loop (results : option AuditResults) (runs : nat) : main_result :=
  match results with
  | Some r => Exit (converged r) runs r
  | None =>
      Crash (mkExn "UnboundLocalError"
               "cannot access local variable 'results' where it is not associated with a value")
            runs
  end.

Fixpoint audit_loop (fuel : nat) (max_iterations : Z) (worlds : Z -> World)
    (iteration : Z) (self_results : AuditResults) (results : option AuditResults)
    (runs : nat) : main_result :=
  if iteration <=? max_iterations then
    match fuel with
    | O => Unfinished
    | S fuel' =>
        match run_audit (worlds iteration) self_results with
        | (Raise e, _) => Crash e (S runs)
        | (Ret results', self_results') =>
            if converged results' then after_loop (Some results') (S runs)
            else
              let fixes := generate_fixes self_results' in
              audit_loop fuel' max_iterations worlds (iteration + 1)
                         AuditResults_new (Some results') (S runs)
        end
    end
  else after_loop results runs.

Definition main_loop (max_iterations : Z) (worlds : Z -> World) : main_result :=
  audit_loop (Z.to_nat max_iterations) max_iterations worlds 1 AuditResults_new None 0.

Definition main (worlds : Z -> World) : main_result := main_loop 5 worlds.

(** ** The files the checks traverse *)

Definition existing (w : World) (p : Path) : list Path :=
  if Path_exists w p then [p] else [].

Definition typescript_files (w : World) : list Path :=
  flat_map (fun pattern =>
              filter (fun p => negb (str_in "node_modules" (Path_str p)))
                     (rglob w (root_path w) pattern))
           typescript_patterns.

Definition style_files (w : World) : list Path :=
  flat_map (rglob w (root_path w)) style_patterns.

Definition client_files (w : World) : list Path :=
  if Path_exists w (client_dir w) then rglob w (client_dir w) "*.tsx" else [].

(** Every file some check opens, as the string the check would report. *)
Definition files_visited (w : World) : list string :=
  map Path_str
      (existing w (joinpath (root_path w) (Path_of_str "package.json"))
       ++ existing w (joinpath (joinpath (root_path w) (Path_of_str "shared"))
                               (Path_of_str "schema.ts"))
       ++ existing w (joinpath (joinpath (root_path w) (Path_of_str "server"))
                               (Path_of_str "routes.ts"))
       ++ client_files w
       ++ typescript_files w
       ++ style_files w
       ++ existing w (joinpath (root_path w) (Path_of_str "tsconfig.json")))%list.

Definition distinct_count (l : list string) : Z :=
  Z.of_nat (List.length (nodup string_dec l)).

(** ** Predicates used in the statements *)

(** [l] appended to the issue list, nothing else touched. *)
Definition add_issues (l : list Issue) (r : AuditResults) : AuditResults :=
  set_issues (issues r ++ l)%list r.

(** [m] ends the same way and appends the same issues, all satisfying [P],
    whatever results object it starts from. *)
Definition emits {A : Type} (P : Issue -> Prop) (m : M A) : Prop :=
  exists (o : outcome A) (l : list Issue),
    Forall P l /\ forall r, m r = (o, add_issues l r).

(** As [emits], and [m] returns normally. *)
Definition emits_ok (P : Issue -> Prop) (m : M unit) : Prop :=
  exists l : list Issue, Forall P l /\ forall r, m r = (Ret tt, add_issues l r).

(** The issues a check reports on a project. *)
Definition reported (c : World -> M unit) (w : World) : list Issue :=
  issues (snd (c w AuditResults_new)).

Definition brand_is_medium (i : Issue) : Prop :=
  category i = "Brand Colors" -> severity i = MEDIUM.

(** The number of issues of severity [s], by partition of the list. *)
Definition count_sev (s : Severity) (l : list Issue) : Z :=
  Z.of_nat (List.length (filter (fun i => Severity_eqb (severity i) s) l)).

(** A results object as [run_audit] hands it to the scorer when it starts
    from [AuditResults()]: only the issue list has been touched. *)
Definition collected (l : list Issue) : AuditResults :=
  add_issues l AuditResults_new.

(** The issues of one run: those of the checks, in the order of the calls. *)
Definition all_reported (w : World) : list Issue :=
  flat_map (fun c => reported c w) rule_checks.

(** The per-severity counts agree with the issue list. *)
Definition counts_match (r : AuditResults) : Prop :=
  critical_count r = count_sev CRITICAL (issues r) /\
  high_count r = count_sev HIGH (issues r) /\
  medium_count r = count_sev MEDIUM (issues r) /\
  low_count r = count_sev LOW (issues r) /\
  critical_count r + high_count r + medium_count r + low_count r
  = Z.of_nat (List.length (issues r)).

(** ** Sample projects *)

Definition lines_of (l : list string) : string := join (String newline "") l.

(** A stand-in for the JSON parser on the three documents the sample
    projects contain; any other text is rejected. *)
Definition sample_json_loads (s : string) : outcome json :=
  if String.eqb s "PACKAGE-PARTIAL" then
    Ret (JObj [("dependencies", JObj [("typescript", JStr "5.4"); ("wouter", JStr "3.0")]);
               ("scripts", JObj [("dev", JStr "vite")])])
  else if String.eqb s "PACKAGE-FULL" then
    Ret (JObj [("dependencies",
                JObj [("drizzle-orm", JStr "0.30"); ("@tanstack/react-query", JStr "5.0");
                      ("wouter", JStr "3.0")]);
               ("devDependencies",
                JObj [("@types/react", JStr "18"); ("@types/react-dom", JStr "18");
                      ("typescript", JStr "5.4")]);
               ("scripts",
                JObj [("dev", JStr "vite"); ("build", JStr "vite build");
                      ("start", JStr "node dist")])])
  else if String.eqb s "TSCONFIG" then
    Ret (JObj [("compilerOptions",
                JObj [("strict", JBool true); ("paths", JObj [])])])
  else Raise (mkExn "JSONDecodeError" "Expecting value: line 1 column 1 (char 0)").

(** A project with findings of every severity: its [tsconfig.json] does
    not parse, and one import names [./foo.service]. *)
Definition sample_project : World :=
  mkWorld (Path_of_str ".") ["proj"]
    [ (["proj"; "package.json"], File (Ret "PACKAGE-PARTIAL"));
      (["proj"; "tsconfig.json"], File (Ret "{ not json"));
      (["proj"; "shared"], Dir);
      (["proj"; "shared"; "schema.ts"], File (Ret "export const users = 1; // TODO"));
      (["proj"; "server"], Dir);
      (["proj"; "server"; "routes.ts"],
       File (Ret (lines_of ["app.get('/users', h);"; "router.post('/api/x', h)"])));
      (["proj"; "client"], Dir);
      (["proj"; "client"; "src"], Dir);
      (["proj"; "client"; "src"; "App.tsx"],
       File (Ret (lines_of
         ["import React from 'react';";
          "import x from './foo.service';";
          "import y from './Bar';";
          "const a: any = process.env.API_URL; if (c) useState(1);";
          "<div className='p-1 bg-blue-500 x'/> console.log(1)";
          "function f(a) { queryKey: ['users'] }"])));
      (["proj"; "client"; "src"; "foo.service.ts"], File (Ret "export default 1"));
      (["proj"; "client"; "src"; "Bar"], Dir);
      (["proj"; "client"; "src"; "s.css"],
       File (Ret "a { color: #FF0000; } .x { color: red-1 }")) ]
    (Ret (2, lines_of ["Foundation.ts(3,4): error TS2304: Cannot find name 'x'.";
                       "src/a.ts(10,2): error TS1005: ';' expected.";
                       "Found 2 errors."; ""]))
    sample_json_loads.

(** A project on which no check reports a CRITICAL or HIGH issue. *)
Definition healthy_project : World :=
  mkWorld (Path_of_str "/proj") ["home"]
    [ (["proj"], Dir);
      (["proj"; "package.json"], File (Ret "PACKAGE-FULL"));
      (["proj"; "tsconfig.json"], File (Ret "TSCONFIG"));
      (["proj"; "README.md"], File (Ret "# Project"));
      (["proj"; "shared"], Dir);
      (["proj"; "shared"; "schema.ts"],
       File (Ret "export const users = 1; export type User = number;")) ]
    (Ret (0, ""))
    sample_json_loads.

(** An empty directory in which the type checker cannot be started. *)
Definition empty_project : World :=
  mkWorld (Path_of_str ".") ["tmp"] []
    (Raise (mkExn "FileNotFoundError" "[Errno 2] No such file or directory: 'npx'"))
    sample_json_loads.

(** One source file importing [./foo.service], next to [foo.service.ts]. *)
Definition dotted_import_project : World :=
  mkWorld (Path_of_str "/proj") ["proj"]
    [ (["proj"], Dir);
      (["proj"; "src"], Dir);
      (["proj"; "src"; "a.ts"], File (Ret "import { x } from './foo.service';"));
      (["proj"; "src"; "foo.service.ts"], File (Ret "export const x = 1;")) ]
    (Ret (0, ""))
    sample_json_loads.

(** The result of one run from a fresh results object. *)
Definition run_result (w : World) : AuditResults :=
  snd (run_audit w AuditResults_new).

Definition summary (i : Issue) : string * Z * Severity * string * string :=
  (file_path i, line_number i, severity i, category i, description i).

Definition one_critical : Issue :=
  mkIssue "package.json" 0 CRITICAL "Dependencies" "package.json not found"
          "Create package.json with proper dependencies" "".

Definition one_low : Issue :=
  mkIssue "README.md" 0 LOW "Documentation" "README file not found"
          "Create README.md with project documentation" "".

(** The issue [_check_missing_dependencies] reports for a missing [wouter]. *)
Definition missing_wouter : Issue :=
  mkIssue "package.json" 0 HIGH "Dependencies" "Missing required dependency: wouter"
          "Add wouter to dependencies or devDependencies" "".

(** The issues of severity [s], in their original order. *)
Definition by_sev (s : Severity) (l : list Issue) : list Issue :=
  filter (fun i => Severity_eqb (severity i) s) l.

(** The advisory text for one issue, as a list of zero or one string. *)
Definition fix_text (i : Issue) : list string :=
  match _generate_fix_command i with
  | Some s => [s]
  | None => []
  end.





(** [p] with [ext] appended to its name. *)
Definition append_ext (p : Path) (ext : string) : Path :=
  mkPath (anchored p) (removelast (parts p) ++ [(name p ++ ext)%string])%list.

(** The five places a relative import may resolve to: the path itself,
    the path with each extension appended, and the index files inside it. *)
Definition candidates_of (p : Path) : list Path :=
  [p; append_ext p ".ts"; append_ext p ".tsx";
   joinpath p (Path_of_str "index.ts"); joinpath p (Path_of_str "index.tsx")].

Definition resolution_candidates (w : World) (importer : Path) (import_path : string)
  : list Path :=
  candidates_of (resolve (cwd w) (joinpath (parent importer) (Path_of_str import_path))).

(** One source file importing [./foo.service], next to [foo.ts] only. *)
Definition renamed_import_project : World :=
  mkWorld (Path_of_str "/proj") ["proj"]
    [ (["proj"], Dir);
      (["proj"; "src"], Dir);
      (["proj"; "src"; "a.ts"], File (Ret "import { x } from './foo.service';"));
      (["proj"; "src"; "foo.ts"], File (Ret "export const x = 1;")) ]
    (Ret (0, ""))
    sample_json_loads.


(** A project that is empty at the first iteration and healthy from the
    second on. *)
Definition recovering (i : Z) : World :=
  if i <=? 1 then empty_project else healthy_project.

(** ** What the checks report: categories, severities and places *)

(** The severities each category is filed with, read off the calls of
    [_add_issue]. *)
Definition allowed_severities (category : string) : list Severity :=
  if String.eqb category "TypeScript" then [CRITICAL]
  else if String.eqb category "Dependencies" then [CRITICAL; HIGH]
  else if String.eqb category "Database" then [CRITICAL; HIGH; MEDIUM]
  else if String.eqb category "API Routes" then [HIGH; MEDIUM]
  else if String.eqb category "API Calls" then [MEDIUM]
  else if String.eqb category "Imports" then [HIGH]
  else if String.eqb category "React" then [MEDIUM; LOW]
  else if String.eqb category "React Hooks" then [HIGH]
  else if String.eqb category "Type Safety" then [MEDIUM; LOW]
  else if String.eqb category "Brand Colors" then [MEDIUM]
  else if String.eqb category "Configuration" then [HIGH; MEDIUM; LOW]
  else if String.eqb category "Environment" then [HIGH]
  else if String.eqb category "Code Quality" then [LOW]
  else if String.eqb category "Documentation" then [LOW]
  else [].

(** The categories of the checks that skip paths containing
    [node_modules] and share their category with no other check. *)
Definition skips_node_modules (category : string) : bool :=
  existsb (String.eqb category) ["Imports"; "Type Safety"; "Environment"; "Code Quality"].

(** The categories whose issues always carry the number of a line. *)
Definition reports_lines (category : string) : bool :=
  existsb (String.eqb category) ["Imports"; "React Hooks"; "Type Safety"; "Code Quality"].

Definition well_formed_issue (i : Issue) : Prop :=
  existsb (Severity_eqb (severity i)) (allowed_severities (category i)) = true /\
  0 <= line_number i /\
  code_snippet i = "" /\
  (reports_lines (category i) = true -> 1 <= line_number i) /\
  (skips_node_modules (category i) = true ->
   str_in "node_modules" (file_path i) = false) /\
  (category i = "Environment" -> str_in "client/src" (file_path i) = true) /\
  (category i = "Imports" -> str_in "not found" (description i) = true).

(** A style sheet and a component inside [node_modules] below the client
    sources. *)
Definition vendored_project : World :=
  mkWorld (Path_of_str "/proj") ["proj"]
    [ (["proj"], Dir);
      (["proj"; "client"], Dir);
      (["proj"; "client"; "src"], Dir);
      (["proj"; "client"; "src"; "node_modules"], Dir);
      (["proj"; "client"; "src"; "node_modules"; "lib.css"], File (Ret "a { color: #ff0000 }"));
      (["proj"; "client"; "src"; "node_modules"; "Lib.tsx"],
       File (Ret "const x: any = 1; console.log(x)")) ]
    (Ret (0, ""))
    sample_json_loads.

(** The advice [_generate_fix_command] gives for an import issue. *)
Definition import_fix (i : Issue) : string :=
  "# Fix import path in " ++ file_path i ++ ":" ++ str_of_int (line_number i).

(** ** The manifest and configuration checks, case by case *)

Definition package_json_path (w : World) : Path :=
  joinpath (root_path w) (Path_of_str "package.json").

(** The issue reported for a required dependency that is not declared. *)
Definition dependency_issue (dep : string) : Issue :=
  mkIssue "package.json" 0 HIGH "Dependencies"
          ("Missing required dependency: " ++ dep)
          ("Add " ++ dep ++ " to dependencies or devDependencies") "".

(** The value under [key] of a parsed object, an empty object when the
    key is absent: [data.get(key, {})]. *)
Definition section_of (key : string) (kv : list (string * json)) : json :=
  match dict_get key kv with
  | Some v => v
  | None => JObj []
  end.

(** The required dependencies declared in neither of two sections. *)
Definition undeclared (a b : list (string * json)) : list string :=
  filter (fun dep => negb (has_key dep (a ++ b)%list)) required_deps.

(** A manifest that declares all dependencies but [wouter], half of them
    as development dependencies. *)
Definition no_wouter_json (s : string) : outcome json :=
  if String.eqb s "PACKAGE" then
    Ret (JObj [("dependencies",
                JObj [("drizzle-orm", JStr "0.30"); ("@tanstack/react-query", JStr "5.0")]);
               ("devDependencies",
                JObj [("@types/react", JStr "18"); ("@types/react-dom", JStr "18");
                      ("typescript", JStr "5.4")])])
  else if String.eqb s "LIST" then Ret (JArr [JStr "typescript"])
  else Raise (mkExn "JSONDecodeError" "Expecting value: line 1 column 1 (char 0)").

Definition no_wouter_project : World :=
  mkWorld (Path_of_str ".") ["proj"]
    [ (["proj"; "package.json"], File (Ret "PACKAGE")) ]
    (Ret (0, "")) no_wouter_json.

(** A manifest that parses to a list. *)
Definition list_manifest_project : World :=
  mkWorld (Path_of_str ".") ["proj"]
    [ (["proj"; "package.json"], File (Ret "LIST")) ]
    (Ret (0, "")) no_wouter_json.

(** The check gave up: one CRITICAL issue about the manifest. *)
Definition dependencies_failure (l : list Issue) : Prop :=
  exists d f : string, l = [mkIssue "package.json" 0 CRITICAL "Dependencies" d f ""].

Definition strict_issue (p : Path) : Issue :=
  mkIssue (Path_str p) 0 MEDIUM "Configuration" "TypeScript strict mode not enabled"
          "Enable strict mode in compilerOptions" "".

Definition paths_issue (p : Path) : Issue :=
  mkIssue (Path_str p) 0 LOW "Configuration" "No path mappings configured"
          "Add path mappings for cleaner imports" "".

Definition tsconfig_failure (p : Path) (e : exn) : Issue :=
  mkIssue (Path_str p) 0 HIGH "Configuration"
          ("Failed to parse tsconfig.json: " ++ exn_msg e)
          "Fix JSON syntax in tsconfig.json" "".

(** [compilerOptions.get('strict') == True] for an options object *)
Definition strict_enabled (opts : list (string * json)) : bool :=
  py_eq_True (match dict_get "strict" opts with Some v => v | None => JNull end).

(** The findings of [_check_tsconfig] on an options object. *)
Definition tsconfig_findings (p : Path) (opts : list (string * json)) : list Issue :=
  ((if strict_enabled opts then [] else [strict_issue p])
   ++ (if has_key "paths" opts then [] else [paths_issue p]))%list.

Definition script_issue (p : Path) (script : string) : Issue :=
  mkIssue (Path_str p) 0 LOW "Configuration" ("Missing " ++ script ++ " script")
          ("Add " ++ script ++ " script to package.json") "".

(** The required scripts that [present] does not find. *)
Definition missing_scripts (present : string -> bool) : list string :=
  filter (fun script => negb (present script)) required_scripts.

Definition schema_path (w : World) : Path :=
  joinpath (joinpath (root_path w) (Path_of_str "shared")) (Path_of_str "schema.ts").

(** The findings of the schema check on the text of the schema file. *)
Definition schema_findings (content : string) : list Issue :=
  ((if str_in "export const" content then []
    else [mkIssue "shared/schema.ts" 0 HIGH "Database" "No table exports found in schema"
                  "Add proper table exports" ""])
   ++ (if str_in "export type" content then []
       else [mkIssue "shared/schema.ts" 0 MEDIUM "Database"
                     "No type exports found in schema"
                     "Add proper type exports for InsertUser, User, etc." ""]))%list.

(** The directory the auditor was started on, as an absolute path. *)
Definition root_dir (w : World) : list string :=
  parts (resolve (cwd w) (root_path w)).

Definition readme_issue : Issue :=
  mkIssue "README.md" 0 LOW "Documentation" "README file not found"
          "Create README.md with project documentation" "".

(** ** Diagnostics as the type checker prints them *)





(** ** Reports and the tests behind them *)

(** What the description of an issue says was checked and found wrong. *)
Definition justified (i : Issue) : Prop :=
  (category i = "API Routes" -> severity i = MEDIUM ->
   exists path, description i = "Route " ++ path ++ " doesn't follow /api/ convention"
                /\ startswith path "/api/" = false) /\
  (category i = "API Calls" ->
   exists query, description i = "Query key " ++ query ++ " doesn't follow /api/ convention"
                 /\ startswith query "/api/" = false) /\
  (category i = "Environment" ->
   exists var, description i = "Frontend env var " ++ var ++ " missing VITE_ prefix"
               /\ startswith var "VITE_" = false) /\
  (category i = "Dependencies" -> severity i = HIGH ->
   exists dep, description i = "Missing required dependency: " ++ dep
               /\ In dep required_deps) /\
  (category i = "Brand Colors" -> 1 <= line_number i ->
   exists forbidden, description i = "Non-brand color found: " ++ forbidden
                     /\ In forbidden forbidden_colors).

(** ** One line of the import check *)

(** The body of the loop of [_check_file_imports] (lines 321-347). *)
Definition import_line (w : World) (file_path : Path) (numbered : Z * string) : M unit :=
  let '(i, line) := numbered in
  let line := strip line in
  if startswith line "import" && str_in "from" line then
    match Re.search Pat.import_from line with
    | Some import_match =>
        let import_path := found_group 1 import_match in
        if startswith import_path "./" || startswith import_path "../" then
          let resolved_path :=
            resolve (cwd w) (joinpath (parent file_path) (Path_of_str import_path)) in
          possible_files <- lift (possible_files_of resolved_path) ;;
          when (negb (existsb (Path_exists w) possible_files))
            (_add_issue (Path_str file_path) i HIGH
               "Imports" ("Import path not found: " ++ import_path)
               "Fix import path or create missing file")
        else ret tt
    | None => ret tt
    end
  else ret tt.

(** The relative import path the check finds on a line, if any. *)
Definition relative_import (line : string) : option string :=
  let line := strip line in
  if startswith line "import" && str_in "from" line then
    match Re.search Pat.import_from line with
    | Some import_match =>
        let import_path := found_group 1 import_match in
        if startswith import_path "./" || startswith import_path "../"
        then Some import_path else None
    | None => None
    end
  else None.

(** Where an import path of a file leads. *)
Definition import_target (w : World) (file_path : Path) (import_path : string) : Path :=
  resolve (cwd w) (joinpath (parent file_path) (Path_of_str import_path)).


(** A file whose first import climbs to the root directory and whose
    second import names a file that does not exist. *)
Definition root_import_project : World :=
  mkWorld (Path_of_str "/proj") ["proj"]
    [ (["proj"], Dir);
      (["proj"; "a.ts"],
       File (Ret (lines_of ["import all from '../..';"; "import gone from './missing';"]))) ]
    (Ret (0, ""))
    sample_json_loads.

(** The checks of one file that skip a file they cannot read. *)
Definition silent_file_checks : list (World -> Path -> M unit) :=
  [_check_file_imports; _check_react_component; _check_hooks_in_file;
   _check_types_in_file; _check_colors_in_css; _check_colors_in_tsx;
   _check_package_scripts; _check_env_vars_in_file; _check_quality_in_file].


(** ** The order of a report *)

(** The categories in the order in which the checks of [run_audit] file
    them. *)
Definition category_order : list string :=
  ["TypeScript"; "Dependencies"; "Database"; "API Routes"; "API Calls"; "Imports";
   "React"; "React Hooks"; "Type Safety"; "Brand Colors"; "Configuration";
   "Environment"; "Code Quality"; "Documentation"].

Definition category_rank (i : Issue) : nat := list_index (category i) category_order.

(** No issue comes before an issue of an earlier category. *)
Fixpoint in_category_order (l : list Issue) : Prop :=
  match l with
  | [] => True
  | i :: rest =>
      Forall (fun j => (category_rank i <= category_rank j)%nat) rest /\
      in_category_order rest
  end.

(** A list in category order whose categories lie between two ranks. *)
Definition block (lo hi : nat) (l : list Issue) : Prop :=
  in_category_order l /\ Forall (fun i => (lo <= category_rank i <= hi)%nat) l.

(** ** Line numbers *)

(** The checks that go through a file line by line. *)
Definition line_checks : list (World -> Path -> M unit) :=
  [_check_file_imports; _check_hooks_in_file; _check_types_in_file;
   _check_colors_in_css; _check_quality_in_file].

(** The issue is about a line of the file at [p] with text [content]. *)
Definition in_file (p : Path) (content : string) (i : Issue) : Prop :=
  file_path i = Path_str p /\
  1 <= line_number i <= Z.of_nat (List.length (split_lines content)).
(** * Properties *)

(** Closed facts about sample inputs are settled by evaluation. *)
Ltac by_computation :=
  cbn zeta; repeat match goal with |- _ /\ _ => split end; vm_compute; reflexivity.

(** ** The scorer *)

Lemma fold_count_issue (l : list Issue) : forall r : AuditResults,
  let r1 := fold_left count_issue l r in
  issues r1 = issues r /\
  total_files_scanned r1 = total_files_scanned r /\
  pass_rate r1 = pass_rate r /\
  critical_count r1 = critical_count r + count_sev CRITICAL l /\
  high_count r1 = high_count r + count_sev HIGH l /\
  medium_count r1 = medium_count r + count_sev MEDIUM l /\
  low_count r1 = low_count r + count_sev LOW l.
Proof.
  unfold count_sev.
  induction l as [|i l IH]; intros r; cbn [fold_left].
  - cbn. repeat split; lia.
  - specialize (IH (count_issue r i)). cbn zeta in IH.
    destruct IH as (H1 & H2 & H3 & H4 & H5 & H6 & H7).
    rewrite H1, H2, H3, H4, H5, H6, H7. clear.
    unfold count_issue. cbn [filter].
    destruct (severity i); cbn [Severity_eqb issues total_files_scanned pass_rate
      critical_count high_count medium_count low_count List.length];
      repeat split; lia.
Qed.

Lemma count_sev_total (l : list Issue) :
  count_sev CRITICAL l + count_sev HIGH l + count_sev MEDIUM l + count_sev LOW l
  = Z.of_nat (List.length l).
Proof.
  unfold count_sev. induction l as [|i l IH]; [reflexivity|].
  cbn [filter]. destruct (severity i); cbn [Severity_eqb List.length]; lia.
Qed.

Lemma count_sev_nonneg (s : Severity) (l : list Issue) : 0 <= count_sev s l.
Proof. unfold count_sev. lia. Qed.

Lemma rate_value (a : Z) (p : positive) :
  (inject_Z a / inject_Z (Zpos p) * 100 == (a * 100) # p)%Q.
Proof.
  unfold Qeq, Qdiv, Qmult, Qinv, inject_Z. cbn. lia.
Qed.

Lemma py_max0_nonneg (x : Q) : (0 <= x)%Q -> (py_max0 x == x)%Q.
Proof.
  intros H. unfold py_max0. destruct (Qlt_le_dec 0 x) as [_|H']; [reflexivity|].
  apply Qle_antisym; assumption.
Qed.

Lemma calculate_collected (l : list Issue) :
  let r := calculate_results (collected l) in
  let total := Z.of_nat (List.length l) in
  issues r = l /\
  total_files_scanned r = 0 /\
  critical_count r = count_sev CRITICAL l /\
  high_count r = count_sev HIGH l /\
  medium_count r = count_sev MEDIUM l /\
  low_count r = count_sev LOW l /\
  pass_rate r =
    (if total =? 0 then 100%Q
     else py_max0 (inject_Z (total - (count_sev CRITICAL l + count_sev HIGH l))
                   / inject_Z total * 100)%Q).
Proof.
  cbn zeta. unfold calculate_results.
  assert (Hl : issues (collected l) = l) by reflexivity.
  rewrite Hl.
  destruct (fold_count_issue l (collected l)) as (H1 & H2 & H3 & H4 & H5 & H6 & H7).
  rewrite Hl in H1. cbn in H2, H4, H5, H6, H7.
  destruct (Z.of_nat (List.length l) =? 0);
    cbn [set_pass_rate issues total_files_scanned critical_count high_count
         medium_count low_count pass_rate];
    rewrite ?H1, ?H2, ?H4, ?H5, ?H6, ?H7; repeat split; reflexivity.
Qed.

Lemma rate_in_range (a : Z) (p : positive) :
  0 <= a <= Zpos p ->
  let x := (inject_Z a / inject_Z (Zpos p) * 100)%Q in
  (py_max0 x == x)%Q /\ (0 <= x)%Q /\ (x <= 100)%Q /\ ((x == 100)%Q <-> a = Zpos p).
Proof.
  intros Ha x.
  assert (Hx : (x == (a * 100) # p)%Q) by apply rate_value.
  assert (H0 : (0 <= x)%Q) by (rewrite Hx; unfold Qle; cbn; lia).
  split; [apply py_max0_nonneg; exact H0|].
  split; [exact H0|].
  split; [rewrite Hx; unfold Qle; cbn; lia|].
  rewrite Hx. unfold Qeq. cbn. lia.
Qed.


Lemma pass_rate_collected (l : list Issue) :
  let r := calculate_results (collected l) in
  let total := inject_Z (Z.of_nat (List.length l)) in
  let critical := count_sev CRITICAL l in
  let high := count_sev HIGH l in
  (l = [] -> pass_rate r = 100%Q) /\
  (l <> [] ->
   (pass_rate r ==
    Qmax 0 ((total - inject_Z critical - inject_Z high) / total * 100))%Q) /\
  (0 <= pass_rate r)%Q /\ (pass_rate r <= 100)%Q /\
  ((pass_rate r == 100)%Q <-> critical = 0 /\ high = 0) /\
  (critical = 1 -> high = 0 -> count_sev MEDIUM l = 0 -> count_sev LOW l = 4 ->
   (pass_rate r == 80)%Q) /\
  (List.length l = 3%nat -> critical = 3 -> (pass_rate r == 0)%Q).
Proof.
  cbn zeta.
  destruct (calculate_collected l) as (_ & _ & _ & _ & _ & _ & Hr). cbn zeta in Hr.
  pose proof (count_sev_total l) as Ht.
  pose proof (count_sev_nonneg CRITICAL l) as Hc.
  pose proof (count_sev_nonneg HIGH l) as Hh.
  pose proof (count_sev_nonneg MEDIUM l) as Hm.
  pose proof (count_sev_nonneg LOW l) as Hw.
  destruct l as [|i l].
  - clear. cbn.
    repeat split; try reflexivity; try (intros; congruence);
      try (intros; discriminate).
  - remember (i :: l) as l' eqn:El.
    assert (Hp : exists p, Z.of_nat (List.length l') = Zpos p).
    { subst l'. cbn [List.length]. exists (Pos.of_succ_nat (List.length l)). lia. }
    destruct Hp as [p Hp]. rewrite Hp in Hr, Ht |- *. cbn [Z.eqb] in Hr.
    set (a := Z.pos p - (count_sev CRITICAL l' + count_sev HIGH l')) in *.
    destruct (rate_in_range a p ltac:(unfold a; lia)) as (Hmax & H0 & H100 & Heq).
    cbn zeta in Hmax, H0, H100, Heq.
    rewrite Hr.
    split; [intros E; subst l'; discriminate|].
    split.
    { intros _. rewrite Hmax.
      assert (Hsub : (inject_Z (Z.pos p) - inject_Z (count_sev CRITICAL l')
                      - inject_Z (count_sev HIGH l') == inject_Z a)%Q).
      { unfold a, Qeq, Qminus, Qplus, Qopp, inject_Z. cbn [Qnum Qden]. lia. }
      rewrite Hsub. symmetry. apply Q.max_r. exact H0. }
    split; [rewrite Hmax; exact H0|].
    split; [rewrite Hmax; exact H100|].
    split; [rewrite Hmax, Heq; unfold a; lia|].
    split.
    + intros E1 E2 E3 E4. rewrite Hmax.
      assert (Ep : p = 5%positive) by lia.
      assert (Ea : a = 4) by (unfold a; lia).
      rewrite Ea, Ep. reflexivity.
    + intros E1 E2. rewrite Hmax.
      assert (Ep : p = 3%positive) by lia.
      assert (Ea : a = 0) by (unfold a; lia).
      rewrite Ea, Ep. reflexivity.
Qed.


(** The documented values on concrete issue lists. *)
Example pass_rate_worked_examples :
  (pass_rate (calculate_results (collected [])) == 100)%Q /\
  (pass_rate (calculate_results
                (collected [one_low; one_critical; one_low; one_low; one_low])) == 80)%Q /\
  (pass_rate (calculate_results
                (collected [one_critical; one_critical; one_critical])) == 0)%Q /\
  (pass_rate (calculate_results (collected [one_low; one_low])) == 100)%Q.
Proof. by_computation. Qed.

(** The documented values, computed in binary64 arithmetic as Python does. *)
Example pass_rate_float_values :
  pass_rate_float 0 0 = 100%float /\
  pass_rate_float 5 1 = 80%float /\
  pass_rate_float 3 3 = 0%float /\
  pass_rate_float 10 0 = 100%float /\
  pass_rate_float 10 1 = 90%float /\
  pass_rate_float 1 1 = 0%float.
Proof. by_computation. Qed.

(** In binary64 arithmetic too, for every total up to 300 and every number
    of CRITICAL and HIGH issues up to the total, the pass rate lies between
    0 and 100 and is 100 exactly when that number is 0. *)
Example pass_rate_float_small_totals :
  forallb (fun total =>
    forallb (fun critical_high =>
      let x := pass_rate_float (Z.of_nat total) (Z.of_nat critical_high) in
      PrimFloat.leb 0%float x && PrimFloat.leb x 100%float
      && Bool.eqb (PrimFloat.eqb x 100%float) (critical_high =? 0)%nat)
      (seq 0 (S total)))
    (seq 0 301) = true.
Proof. vm_compute. reflexivity. Qed.

(** ** Checks only append issues *)

Lemma add_issues_nil (r : AuditResults) : add_issues [] r = r.
Proof. destruct r. unfold add_issues, set_issues. cbn. rewrite app_nil_r. reflexivity. Qed.

Lemma add_issues_app (l1 l2 : list Issue) (r : AuditResults) :
  add_issues l2 (add_issues l1 r) = add_issues (l1 ++ l2) r.
Proof. unfold add_issues, set_issues. cbn. rewrite app_assoc. reflexivity. Qed.

Section Emits.
Variable P : Issue -> Prop.

Lemma emits_of_ok (m : M unit) : emits_ok P m -> emits P m.
Proof. intros (l & Hl & H). exists (Ret tt), l. auto. Qed.

Lemma emits_lift {A : Type} (o : outcome A) : emits P (lift o).
Proof.
  exists o, []. split; [constructor|]. intros r. rewrite add_issues_nil. reflexivity.
Qed.

Lemma emits_ret {A : Type} (a : A) : emits P (ret a).
Proof. apply (emits_lift (Ret a)). Qed.

Lemma ok_ret : emits_ok P (ret tt).
Proof.
  exists []. split; [constructor|]. intros r. rewrite add_issues_nil. reflexivity.
Qed.

Lemma ok_add_issue (f : string) (n : Z) (s : Severity) (c d x : string) :
  P (mkIssue f n s c d x "") -> emits_ok P (_add_issue f n s c d x).
Proof.
  intros H. exists [mkIssue f n s c d x ""]. split; [repeat constructor; exact H|].
  reflexivity.
Qed.

Lemma emits_bind {A B : Type} (m : M A) (k : A -> M B) :
  emits P m -> (forall a, emits P (k a)) -> emits P (bind m k).
Proof.
  intros (o & l & Hl & Hm) Hk. destruct o as [a|e].
  - destruct (Hk a) as (o' & l' & Hl' & Hk').
    exists o', (l ++ l')%list. split; [apply Forall_app; auto|].
    intros r. unfold bind. rewrite Hm, Hk'. rewrite add_issues_app. reflexivity.
  - exists (Raise e), l. split; [exact Hl|].
    intros r. unfold bind. rewrite Hm. reflexivity.
Qed.

Lemma ok_bind (m : M unit) (k : unit -> M unit) :
  emits_ok P m -> emits_ok P (k tt) -> emits_ok P (bind m k).
Proof.
  intros (l & Hl & Hm) (l' & Hl' & Hk).
  exists (l ++ l')%list. split; [apply Forall_app; auto|].
  intros r. unfold bind. rewrite Hm, Hk, add_issues_app. reflexivity.
Qed.

Lemma ok_try (body : M unit) (handler : exn -> M unit) :
  emits P body -> (forall e, emits_ok P (handler e)) ->
  emits_ok P (try_except body handler).
Proof.
  intros (o & l & Hl & Hb) Hh. destruct o as [[]|e].
  - exists l. split; [exact Hl|]. intros r. unfold try_except. rewrite Hb. reflexivity.
  - destruct (Hh e) as (l' & Hl' & Hh').
    exists (l ++ l')%list. split; [apply Forall_app; auto|].
    intros r. unfold try_except. rewrite Hb, Hh', add_issues_app. reflexivity.
Qed.

Lemma emits_for_each {A : Type} (l : list A) (body : A -> M unit) :
  (forall x, emits P (body x)) -> emits P (for_each l body).
Proof.
  intros H. induction l as [|x l IH]; cbn [for_each].
  - apply emits_ret.
  - apply emits_bind; [apply H | intros _; exact IH].
Qed.

Lemma ok_for_each {A : Type} (l : list A) (body : A -> M unit) :
  (forall x, emits_ok P (body x)) -> emits_ok P (for_each l body).
Proof.
  intros H. induction l as [|x l IH]; cbn [for_each].
  - apply ok_ret.
  - apply ok_bind; [apply H | exact IH].
Qed.

Lemma ok_when (c : bool) (body : M unit) :
  emits_ok P body -> emits_ok P (when c body).
Proof. intros H. destruct c; [exact H | apply ok_ret]. Qed.

Lemma emits_when (c : bool) (body : M unit) :
  emits P body -> emits P (when c body).
Proof. intros H. destruct c; [exact H | apply emits_ret]. Qed.

End Emits.

Lemma emits_ok_weaken (P Q : Issue -> Prop) (m : M unit) :
  (forall i, P i -> Q i) -> emits_ok P m -> emits_ok Q m.
Proof.
  intros HPQ (l & Hl & H). exists l. split; [|exact H].
  eapply Forall_impl; [|exact Hl]. exact HPQ.
Qed.

(** The fact about one reported issue: its category is a literal, so the
    premise of [brand_is_medium] is refuted or its conclusion computed. *)
Ltac issue_fact :=
  first [ exact I
        | let H := fresh in
          intros H; cbn in H |- *; first [reflexivity | discriminate H] ].

(** One step of a proof that a method only appends issues satisfying the
    predicate of the goal: follow the structure of its body. *)
Ltac emit_step :=
  match goal with
  | |- emits_ok _ (ret tt) => apply ok_ret
  | |- emits_ok _ (_add_issue _ _ _ _ _ _) => apply ok_add_issue; issue_fact
  | |- emits_ok _ (try_except _ _) => apply ok_try; [|intros ?]
  | |- emits_ok _ (for_each _ _) => apply ok_for_each; intros ?
  | |- emits_ok _ (when _ _) => apply ok_when
  | |- emits_ok _ (bind _ _) => apply ok_bind
  | |- emits _ (ret _) => apply emits_ret
  | |- emits _ (lift _) => apply emits_lift
  | |- emits _ (for_each _ _) => apply emits_for_each; intros ?
  | |- emits _ (when _ _) => apply emits_when
  | |- emits _ (bind _ _) => apply emits_bind; [|intros ?]
  | |- emits _ (_add_issue _ _ _ _ _ _) => apply emits_of_ok
  | |- emits _ (try_except _ _) => apply emits_of_ok
  | |- _ (if ?c then _ else _) => destruct c
  | |- _ (match ?x with _ => _ end) => destruct x
  | |- _ (let '(_, _) := ?x in _) => destruct x
  end.

Ltac emit := repeat emit_step.

(** Every rule check returns normally and only appends issues; an issue it
    files under Brand Colors has severity MEDIUM. *)
Section ChecksAppend.
Variable w : World.

Lemma ok_parse_typescript_error (line : string) :
  emits_ok brand_is_medium (_parse_typescript_error line).
Proof. unfold _parse_typescript_error. emit. Qed.

Lemma ok_check_typescript_compilation :
  emits_ok brand_is_medium (_check_typescript_compilation w).
Proof.
  unfold _check_typescript_compilation. emit.
  apply emits_of_ok, ok_parse_typescript_error.
Qed.

Lemma ok_check_missing_dependencies :
  emits_ok brand_is_medium (_check_missing_dependencies w).
Proof. unfold _check_missing_dependencies. emit. Qed.

Lemma ok_check_database_schema_consistency :
  emits_ok brand_is_medium (_check_database_schema_consistency w).
Proof. unfold _check_database_schema_consistency. emit. Qed.

Lemma ok_check_server_routes (p : Path) :
  emits_ok brand_is_medium (_check_server_routes w p).
Proof. unfold _check_server_routes. emit. Qed.

Lemma ok_check_client_api_calls :
  emits_ok brand_is_medium (_check_client_api_calls w).
Proof. unfold _check_client_api_calls. emit. Qed.

Lemma ok_check_api_route_consistency :
  emits_ok brand_is_medium (_check_api_route_consistency w).
Proof.
  unfold _check_api_route_consistency.
  apply ok_bind; [apply ok_when, ok_check_server_routes | apply ok_check_client_api_calls].
Qed.

Lemma ok_for_typescript_files (body : Path -> M unit) :
  (forall p, emits_ok brand_is_medium (body p)) ->
  emits_ok brand_is_medium (for_typescript_files w body).
Proof. intros H. unfold for_typescript_files. emit. apply H. Qed.

Lemma ok_check_file_imports (p : Path) :
  emits_ok brand_is_medium (_check_file_imports w p).
Proof. unfold _check_file_imports. emit. Qed.

Lemma ok_check_import_export_issues :
  emits_ok brand_is_medium (_check_import_export_issues w).
Proof. apply ok_for_typescript_files, ok_check_file_imports. Qed.

Lemma ok_check_react_component (p : Path) :
  emits_ok brand_is_medium (_check_react_component w p).
Proof. unfold _check_react_component. emit. Qed.

Lemma ok_check_component_structure :
  emits_ok brand_is_medium (_check_component_structure w).
Proof. unfold _check_component_structure. emit. apply ok_check_react_component. Qed.

Lemma ok_check_hooks_in_file (p : Path) :
  emits_ok brand_is_medium (_check_hooks_in_file w p).
Proof. unfold _check_hooks_in_file. emit. Qed.

Lemma ok_check_react_hooks_usage :
  emits_ok brand_is_medium (_check_react_hooks_usage w).
Proof. unfold _check_react_hooks_usage. emit. apply ok_check_hooks_in_file. Qed.

Lemma ok_check_types_in_file (p : Path) :
  emits_ok brand_is_medium (_check_types_in_file w p).
Proof. unfold _check_types_in_file. emit. Qed.

Lemma ok_check_type_safety : emits_ok brand_is_medium (_check_type_safety w).
Proof. apply ok_for_typescript_files, ok_check_types_in_file. Qed.

Lemma ok_check_colors_in_css (p : Path) :
  emits_ok brand_is_medium (_check_colors_in_css w p).
Proof. unfold _check_colors_in_css. emit. Qed.

Lemma ok_check_colors_in_tsx (p : Path) :
  emits_ok brand_is_medium (_check_colors_in_tsx w p).
Proof. unfold _check_colors_in_tsx. emit. Qed.

Lemma ok_check_brand_color_compliance :
  emits_ok brand_is_medium (_check_brand_color_compliance w).
Proof.
  unfold _check_brand_color_compliance. apply ok_bind.
  - emit. apply ok_check_colors_in_css.
  - apply ok_for_typescript_files, ok_check_colors_in_tsx.
Qed.

Lemma ok_check_tsconfig (p : Path) : emits_ok brand_is_medium (_check_tsconfig w p).
Proof. unfold _check_tsconfig. emit. Qed.

Lemma ok_check_package_scripts (p : Path) :
  emits_ok brand_is_medium (_check_package_scripts w p).
Proof. unfold _check_package_scripts. emit. Qed.

Lemma ok_check_configuration_files :
  emits_ok brand_is_medium (_check_configuration_files w).
Proof.
  unfold _check_configuration_files. apply ok_bind.
  - destruct (Path_exists w _); [apply ok_check_tsconfig | emit].
  - apply ok_when, ok_check_package_scripts.
Qed.

Lemma ok_check_env_vars_in_file (p : Path) :
  emits_ok brand_is_medium (_check_env_vars_in_file w p).
Proof. unfold _check_env_vars_in_file. emit. Qed.

Lemma ok_check_environment_variables :
  emits_ok brand_is_medium (_check_environment_variables w).
Proof. apply ok_for_typescript_files, ok_check_env_vars_in_file. Qed.

Lemma ok_check_quality_in_file (p : Path) :
  emits_ok brand_is_medium (_check_quality_in_file w p).
Proof. unfold _check_quality_in_file. emit. Qed.

Lemma ok_check_code_quality : emits_ok brand_is_medium (_check_code_quality w).
Proof. apply ok_for_typescript_files, ok_check_quality_in_file. Qed.

Lemma ok_check_documentation : emits_ok brand_is_medium (_check_documentation w).
Proof. unfold _check_documentation. emit. Qed.

Lemma ok_rule_checks (c : World -> M unit) :
  In c rule_checks -> emits_ok brand_is_medium (c w).
Proof.
  unfold rule_checks. cbn [In].
  intros [<-|[<-|[<-|[<-|[<-|[<-|[<-|[<-|[<-|[<-|[<-|[<-|[<-|[]]]]]]]]]]]]]].
  - apply ok_check_typescript_compilation.
  - apply ok_check_missing_dependencies.
  - apply ok_check_database_schema_consistency.
  - apply ok_check_api_route_consistency.
  - apply ok_check_import_export_issues.
  - apply ok_check_component_structure.
  - apply ok_check_react_hooks_usage.
  - apply ok_check_type_safety.
  - apply ok_check_brand_color_compliance.
  - apply ok_check_configuration_files.
  - apply ok_check_environment_variables.
  - apply ok_check_code_quality.
  - apply ok_check_documentation.
Qed.

End ChecksAppend.

(** ** The runner *)

Lemma check_appends (c : World -> M unit) (w : World) :
  In c rule_checks ->
  (forall r, c w r = (Ret tt, add_issues (reported c w) r)) /\
  Forall brand_is_medium (reported c w).
Proof.
  intros Hc. destruct (ok_rule_checks w c Hc) as (l & Hl & H).
  assert (E : reported c w = l) by (unfold reported; rewrite H; reflexivity).
  rewrite E. split; assumption.
Qed.

Lemma bind_appends {B : Type} (m : M unit) (k : unit -> M B) (l : list Issue)
    (r : AuditResults) :
  (forall r', m r' = (Ret tt, add_issues l r')) ->
  bind m k r = k tt (add_issues l r).
Proof. intros H. unfold bind. rewrite H. reflexivity. Qed.

Ltac run_check :=
  erewrite bind_appends;
  [| intros ?; apply check_appends; unfold rule_checks; cbn [In]; tauto].

Lemma run_audit_eq (w : World) (r : AuditResults) :
  run_audit w r =
  (Ret (calculate_results (add_issues (all_reported w) r)),
   calculate_results (add_issues (all_reported w) r)).
Proof.
  unfold run_audit. do 13 run_check.
  rewrite !add_issues_app.
  unfold all_reported, rule_checks. cbn [flat_map].
  rewrite <- ?app_assoc, ?app_nil_r. reflexivity.
Qed.

Lemma all_reported_brand (w : World) : Forall brand_is_medium (all_reported w).
Proof.
  unfold all_reported. apply Forall_flat_map, Forall_forall.
  intros c Hc. apply check_appends, Hc.
Qed.

Lemma run_audit_fresh (w : World) :
  run_audit w AuditResults_new =
  (Ret (calculate_results (collected (all_reported w))),
   calculate_results (collected (all_reported w))).
Proof. apply run_audit_eq. Qed.

Lemma calculate_adds (r : AuditResults) :
  issues (calculate_results r) = issues r /\
  total_files_scanned (calculate_results r) = total_files_scanned r /\
  critical_count (calculate_results r) = critical_count r + count_sev CRITICAL (issues r) /\
  high_count (calculate_results r) = high_count r + count_sev HIGH (issues r) /\
  medium_count (calculate_results r) = medium_count r + count_sev MEDIUM (issues r) /\
  low_count (calculate_results r) = low_count r + count_sev LOW (issues r).
Proof.
  unfold calculate_results.
  destruct (fold_count_issue (issues r) r) as (H1 & H2 & H3 & H4 & H5 & H6 & H7).
  destruct (Z.of_nat (List.length (issues r)) =? 0);
    cbn [set_pass_rate issues total_files_scanned critical_count high_count
         medium_count low_count];
    repeat split; assumption.
Qed.

Lemma counts_match_collected (l : list Issue) :
  counts_match (calculate_results (collected l)).
Proof.
  destruct (calculate_collected l) as (Hi & _ & Hc & Hh & Hm & Hl & _).
  cbn zeta in *. unfold counts_match.
  rewrite Hi, Hc, Hh, Hm, Hl. repeat split. apply count_sev_total.
Qed.

(** C5 does not hold as stated: on the sample project the checks
    open seven distinct files and the result says none was scanned. *)
Lemma files_scanned_not_counted :
  distinct_count (files_visited sample_project) = 7 /\
  total_files_scanned (run_result sample_project) = 0.
Proof. by_computation. Qed.

(** C5 (amended). Every run from a fresh results object returns a result
    whose [total_files_scanned] is 0, the default of the field: no check and
    no other step of the run writes to it. *)
Theorem files_scanned_stays_zero (w : World) :
  exists r : AuditResults,
    run_audit w AuditResults_new = (Ret r, r) /\ total_files_scanned r = 0.
Proof.
  exists (calculate_results (collected (all_reported w))).
  split; [apply run_audit_fresh|].
  destruct (calculate_collected (all_reported w)) as (_ & H & _). exact H.
Qed.


(** A check that meets a malformed [tsconfig.json] reports it, and the
    checks called after it still report. *)
Example malformed_tsconfig_does_not_stop_the_run :
  map summary (reported _check_configuration_files sample_project) =
  [("tsconfig.json", 0, HIGH, "Configuration",
    "Failed to parse tsconfig.json: Expecting value: line 1 column 1 (char 0)");
   ("package.json", 0, LOW, "Configuration", "Missing build script");
   ("package.json", 0, LOW, "Configuration", "Missing start script")] /\
  map summary (reported _check_documentation sample_project) =
  [("README.md", 0, LOW, "Documentation", "README file not found")] /\
  List.length (issues (run_result sample_project)) = 24%nat.
Proof. by_computation. Qed.

(** C9. A rule check keeps no state between invocations: on the same
    project it returns normally and appends the same sequence of issues
    whatever results object it starts from, in particular when it is run a
    second time after its own first run. *)
Theorem checks_are_deterministic (c : World -> M unit) (w : World)
    (r1 r2 : AuditResults) :
  In c rule_checks ->
  exists l : list Issue,
    c w r1 = (Ret tt, add_issues l r1) /\
    c w r2 = (Ret tt, add_issues l r2) /\
    c w (add_issues l r1) = (Ret tt, add_issues l (add_issues l r1)).
Proof.
  intros Hc. destruct (check_appends c w Hc) as (H & _).
  exists (reported c w). repeat split; apply H.
Qed.

Lemma checks_are_deterministic_witness :
  exists l : list Issue,
    _check_configuration_files sample_project AuditResults_new
    = (Ret tt, add_issues l AuditResults_new) /\
    _check_configuration_files sample_project (collected [one_critical])
    = (Ret tt, add_issues l (collected [one_critical])) /\
    _check_configuration_files sample_project (add_issues l AuditResults_new)
    = (Ret tt, add_issues l (add_issues l AuditResults_new)).
Proof.
  apply (checks_are_deterministic _check_configuration_files sample_project
           AuditResults_new (collected [one_critical])).
  do 9 right. left. reflexivity.
Defined.

(** ** Fix generation *)

Lemma in_insert_by {A : Type} (key : A -> nat) (x y : A) (l : list A) :
  In y (insert_by key x l) <-> y = x \/ In y l.
Proof.
  induction l as [|z l IH]; cbn [insert_by].
  - cbn. intuition congruence.
  - destruct (key x <=? key z)%nat; cbn [In] in *; [intuition congruence|].
    rewrite IH. intuition.
Qed.

Lemma in_sorted {A : Type} (key : A -> nat) (y : A) (l : list A) :
  In y (sorted key l) <-> In y l.
Proof.
  unfold sorted. induction l as [|x l IH]; cbn [fold_right In]; [tauto|].
  rewrite in_insert_by, IH. intuition congruence.
Qed.

Lemma insert_by_app {A : Type} (key : A -> nat) (x : A) (a b : list A) :
  Forall (fun y => (key y < key x)%nat) a ->
  insert_by key x (a ++ b) = (a ++ insert_by key x b)%list.
Proof.
  induction 1 as [|y a Hy _ IH]; [reflexivity|].
  cbn [app insert_by].
  destruct (Nat.leb_spec (key x) (key y)); [lia|]. rewrite IH. reflexivity.
Qed.

Lemma insert_by_front {A : Type} (key : A -> nat) (x : A) (b : list A) :
  Forall (fun y => (key x <= key y)%nat) b -> insert_by key x b = x :: b.
Proof.
  intros H. destruct H as [|y b Hy _]; [reflexivity|].
  cbn [insert_by]. destruct (Nat.leb_spec (key x) (key y)); [reflexivity|lia].
Qed.

Lemma Forall_by_sev (s : Severity) (l : list Issue) (R : Issue -> Prop) :
  (forall y, severity y = s -> R y) -> Forall R (by_sev s l).
Proof.
  intros H. unfold by_sev. apply Forall_forall. intros y Hy.
  apply filter_In in Hy. destruct Hy as [_ Hy]. apply H.
  destruct (severity y), s; try discriminate Hy; reflexivity.
Qed.

Lemma severity_key_value (x : Issue) :
  severity_key x =
  match severity x with
  | CRITICAL => 0 | HIGH => 1 | MEDIUM => 2 | LOW => 3
  end%nat.
Proof. unfold severity_key. destruct (severity x); reflexivity. Qed.

Ltac by_key E :=
  repeat (apply Forall_app; split);
  apply Forall_by_sev;
  let y := fresh "y" in let Hy := fresh "Hy" in
  intros y Hy; rewrite !severity_key_value, Hy, E; lia.

(** [sorted] on the severity key lists the CRITICAL issues, then the HIGH,
    MEDIUM and LOW ones, each group in its original order. *)
Lemma sorted_by_severity (l : list Issue) :
  sorted severity_key l =
  (by_sev CRITICAL l ++ by_sev HIGH l ++ by_sev MEDIUM l ++ by_sev LOW l)%list.
Proof.
  induction l as [|x l IH]; [reflexivity|].
  change (sorted severity_key (x :: l)) with (insert_by severity_key x (sorted severity_key l)).
  rewrite IH. clear IH.
  unfold by_sev at 5 6 7 8. cbn [filter].
  fold (by_sev CRITICAL l) (by_sev HIGH l) (by_sev MEDIUM l) (by_sev LOW l).
  destruct (severity x) eqn:E; cbn [Severity_eqb].
  - rewrite insert_by_front; [reflexivity | by_key E].
  - rewrite insert_by_app by by_key E.
    rewrite insert_by_front; [reflexivity | by_key E].
  - do 2 rewrite insert_by_app by by_key E.
    rewrite insert_by_front; [reflexivity | by_key E].
  - do 3 rewrite insert_by_app by by_key E.
    rewrite insert_by_front; [reflexivity | by_key E].
Qed.

Lemma fix_command_nonempty (i : Issue) (s : string) :
  _generate_fix_command i = Some s -> String.eqb s "" = false.
Proof.
  unfold _generate_fix_command.
  destruct (_ && _); [intros [= <-]; reflexivity|].
  destruct (_ && _); [intros [= <-]; reflexivity|].
  destruct (String.eqb _ _); [intros [= <-]; reflexivity|discriminate].
Qed.

Lemma fix_for_by_sev (s : Severity) (l : list Issue) :
  flat_map fix_for (by_sev s l) =
  match s with
  | CRITICAL | HIGH => flat_map fix_text (by_sev s l)
  | MEDIUM | LOW => []
  end.
Proof.
  unfold by_sev. induction l as [|x l IH]; [destruct s; reflexivity|].
  cbn [filter]. destruct (Severity_eqb (severity x) s) eqn:E; [|exact IH].
  cbn [flat_map]. rewrite IH.
  unfold fix_for, fix_text, is_critical_or_high. cbn [existsb].
  destruct (_generate_fix_command x) as [t|] eqn:G;
    [rewrite (fix_command_nonempty x t G)|];
    destruct (severity x), s; try discriminate E; reflexivity.
Qed.

(** [generate_fixes] passes exactly the CRITICAL and HIGH issues to the
    generator, the CRITICAL ones first and each group in the order of the
    issue list, and keeps the strings it returns. *)
Lemma generate_fixes_spec (r : AuditResults) :
  generate_fixes r =
  flat_map fix_text (by_sev CRITICAL (issues r) ++ by_sev HIGH (issues r))%list.
Proof.
  unfold generate_fixes. cbn zeta. rewrite sorted_by_severity.
  rewrite !flat_map_app, !fix_for_by_sev, !app_nil_r. reflexivity.
Qed.

Lemma issues_run_result (w : World) : issues (run_result w) = all_reported w.
Proof.
  unfold run_result. rewrite run_audit_fresh. cbn [snd].
  destruct (calculate_collected (all_reported w)) as (H & _). exact H.
Qed.

(** C10. In the result of every run, no issue that [generate_fixes] passes
    to the generator (a CRITICAL or HIGH one) has the category Brand Colors,
    since the checks file that category with MEDIUM severity only; hence no
    string [generate_fixes] returns is the Brand Colors advice. *)
Theorem brand_colors_fix_unreachable (w : World) :
  Forall (fun i => category i = "Brand Colors" -> severity i = MEDIUM)
         (issues (run_result w)) /\
  Forall (fun i => category i <> "Brand Colors")
         (by_sev CRITICAL (issues (run_result w)) ++ by_sev HIGH (issues (run_result w))) /\
  Forall (fun s => startswith s "# Update colors in " = false)
         (generate_fixes (run_result w)).
Proof.
  assert (Hb : Forall brand_is_medium (issues (run_result w)))
    by (rewrite issues_run_result; apply all_reported_brand).
  assert (Hc : Forall (fun i => category i <> "Brand Colors")
                 (by_sev CRITICAL (issues (run_result w))
                  ++ by_sev HIGH (issues (run_result w)))).
  { rewrite Forall_forall in Hb. apply Forall_app; split;
      apply Forall_forall; intros i Hi; apply filter_In in Hi;
      destruct Hi as [Hi Hs]; intros Hcat; specialize (Hb i Hi Hcat);
      rewrite Hb in Hs; discriminate Hs. }
  split; [exact Hb|]. split; [exact Hc|].
  rewrite generate_fixes_spec. apply Forall_flat_map.
  eapply Forall_impl; [|exact Hc]. cbn beta. intros i Hi.
  unfold fix_text, _generate_fix_command.
  destruct (_ && _); [repeat constructor|].
  destruct (_ && _); [repeat constructor|].
  destruct (String.eqb (category i) "Brand Colors") eqn:E; [|constructor].
  apply String.eqb_eq in E. contradiction.
Qed.

(** The Brand Colors advice exists in the generator and is produced when
    the generator is called directly on a Brand Colors issue. *)
Example brand_colors_template :
  _generate_fix_command
    (mkIssue "client/src/s.css" 1 MEDIUM "Brand Colors" "Non-brand color found: #ff" "" "")
  = Some "# Update colors in client/src/s.css to use brand palette".
Proof. reflexivity. Qed.

(** C4 (code defect). The first template of the generator tests the
    category TypeScript, not Dependencies: an issue of category Dependencies
    gets no advisory string, whatever its description, so the issue reported
    for a missing dependency yields no fix. *)
Theorem dependencies_issue_gets_no_fix :
  (forall (f : string) (n : Z) (s : Severity) (d x c : string),
     _generate_fix_command (mkIssue f n s "Dependencies" d x c) = None) /\
  str_in "Missing" (description missing_wouter) = true /\
  generate_fixes (collected [missing_wouter]) = [] /\
  _generate_fix_command
    (mkIssue "package.json" 0 HIGH "TypeScript" "Missing required dependency: wouter" "" "")
  = Some "# Fix missing dependency: Missing required dependency: wouter".
Proof. repeat split. Qed.

(** ** The compilation check *)

Lemma for_each_appends {A : Type} (body : A -> M unit) (g : A -> list Issue)
    (l : list A) :
  (forall x r, body x r = (Ret tt, add_issues (g x) r)) ->
  forall r, for_each l body r = (Ret tt, add_issues (flat_map g l) r).
Proof.
  intros H. induction l as [|x l IH]; intros r; cbn [for_each flat_map].
  - unfold ret. rewrite add_issues_nil. reflexivity.
  - unfold bind. rewrite H, IH, add_issues_app. reflexivity.
Qed.









(** The three cases on sample projects: the checker cannot be started; it
    reports two diagnostics and a summary line, the first diagnostic being
    for Foundation.ts. *)
Example typescript_check_samples :
  map summary (reported _check_typescript_compilation empty_project) =
  [("tsconfig.json", 0, CRITICAL, "TypeScript",
    "Failed to run TypeScript compiler: [Errno 2] No such file or directory: 'npx'")] /\
  map summary (reported _check_typescript_compilation sample_project) =
  [("src/a.ts", 10, CRITICAL, "TypeScript", "Compilation error: ';' expected.")] /\
  reported _check_typescript_compilation healthy_project = [].
Proof. by_computation. Qed.

(** ** Import resolution *)



(** C6 (code defect). The check builds the second and third candidate with
    [with_suffix], which replaces a suffix the import path already has: for
    the import [./foo.service] it looks for [foo.ts] and [foo.tsx].  With
    [foo.service.ts] present it reports the import as not found, and with
    only [foo.ts] present it reports nothing. *)
Theorem dotted_import_misresolved :
  let importer := Path_of_str "/proj/src/a.ts" in
  let check := fun w => _check_file_imports w importer in
  possible_files_of (Path_of_str "/proj/src/foo.service")
  = Ret (map Path_of_str
           ["/proj/src/foo.service"; "/proj/src/foo.ts"; "/proj/src/foo.tsx";
            "/proj/src/foo.service/index.ts"; "/proj/src/foo.service/index.tsx"]) /\
  (existsb (Path_exists dotted_import_project)
           (resolution_candidates dotted_import_project importer "./foo.service") = true /\
   map summary (reported check dotted_import_project) =
   [("/proj/src/a.ts", 1, HIGH, "Imports", "Import path not found: ./foo.service")]) /\
  (existsb (Path_exists renamed_import_project)
           (resolution_candidates renamed_import_project importer "./foo.service") = false /\
   reported check renamed_import_project = []).
Proof. cbn zeta. by_computation. Qed.

(** ** The iteration loop *)

Lemma run_audit_result (w : World) :
  run_audit w AuditResults_new = (Ret (run_result w), run_result w).
Proof. unfold run_result. rewrite run_audit_fresh. reflexivity. Qed.


Lemma converged_true (r : AuditResults) :
  (100 <= pass_rate r)%Q <-> converged r = true.
Proof. unfold converged. symmetry. apply Qle_bool_iff. Qed.

Section Loop.
Variable N : Z.
Variable worlds : Z -> World.



Lemma loop_finishes (fuel : nat) : forall (i : Z) (res : option AuditResults) (runs : nat),
  N + 1 - i <= Z.of_nat fuel ->
  audit_loop fuel N worlds i AuditResults_new res runs <> Unfinished.
Proof.
  induction fuel as [|fuel IH]; intros i res runs Hf; cbn [audit_loop];
    destruct (Z.leb_spec i N); try lia;
    try (unfold after_loop; destruct res; discriminate).
  rewrite run_audit_result.
  destruct (converged (run_result (worlds i))); [discriminate|].
  cbn zeta. apply IH. lia.
Qed.

Lemma loop_returns_a_run (fuel : nat) :
  forall (i : Z) (res : option AuditResults) (runs n : nat) (s : bool) (r : AuditResults),
  (forall r0, res = Some r0 -> exists j, r0 = run_result (worlds j)) ->
  audit_loop fuel N worlds i AuditResults_new res runs = Exit s n r ->
  exists j, r = run_result (worlds j).
Proof.
  induction fuel as [|fuel IH]; intros i res runs n s r Hres; cbn [audit_loop];
    destruct (i <=? N); try discriminate;
    try (unfold after_loop; destruct res as [r0|]; [|discriminate];
         intros [= _ _ <-]; apply Hres; reflexivity).
  rewrite run_audit_result.
  destruct (converged (run_result (worlds i))) eqn:E.
  - unfold after_loop. intros [= _ _ <-]. exists i. reflexivity.
  - cbn zeta. apply IH. intros r0 [= <-]. exists i. reflexivity.
Qed.

End Loop.

(** The loop of [main] always comes to an end. *)
Lemma main_loop_finishes (N : Z) (worlds : Z -> World) :
  main_loop N worlds <> Unfinished.
Proof. unfold main_loop. apply loop_finishes. lia. Qed.

(** Every result [main] ends with is the result of a run that started from
    a fresh results object, so its counts agree with its issue list. *)
Lemma main_result_counts (N : Z) (worlds : Z -> World) (s : bool) (n : nat)
    (r : AuditResults) :
  main_loop N worlds = Exit s n r -> counts_match r.
Proof.
  unfold main_loop. intros H.
  apply loop_returns_a_run in H; [|discriminate].
  destruct H as [j ->]. unfold run_result. rewrite run_audit_fresh.
  apply counts_match_collected.
Qed.

(** C2 does not hold as stated: scoring the same results object a
    second time adds the counts again, so one CRITICAL issue is counted
    twice. *)
Lemma rescoring_drifts :
  let r := calculate_results (calculate_results (collected [one_critical])) in
  issues r = [one_critical] /\
  critical_count r = 2 /\
  count_sev CRITICAL (issues r) = 1 /\
  ~ counts_match r.
Proof.
  cbn zeta. repeat split. intros (H & _). vm_compute in H. discriminate H.
Qed.

(** C2 (amended). The result of every run that starts from a fresh results
    object has per-severity counts equal to the counts by partition of its
    issue list, and they sum to the length of the list.  The scoring step
    does not reset the counters: executed on any results object it adds the
    counts by partition to the counters already there. *)
Theorem counts_match_fresh_run :
  (forall w : World, counts_match (run_result w)) /\
  (forall (N : Z) (worlds : Z -> World) (s : bool) (n : nat) (r : AuditResults),
     main_loop N worlds = Exit s n r -> counts_match r) /\
  (forall r : AuditResults,
     let r' := calculate_results r in
     issues r' = issues r /\
     critical_count r' = critical_count r + count_sev CRITICAL (issues r) /\
     high_count r' = high_count r + count_sev HIGH (issues r) /\
     medium_count r' = medium_count r + count_sev MEDIUM (issues r) /\
     low_count r' = low_count r + count_sev LOW (issues r)).
Proof.
  split; [|split].
  - intros w. unfold run_result. rewrite run_audit_fresh. cbn [snd].
    apply counts_match_collected.
  - intros N worlds s n r H. eapply main_result_counts. exact H.
  - intros r. cbn zeta.
    destruct (calculate_adds r) as (H1 & _ & H3 & H4 & H5 & H6).
    repeat split; assumption.
Qed.



(** [main] is the loop with the bound 5; with no iteration at all the code
    after the loop finds [results] unbound. *)
Example main_runs :
  main (fun _ => empty_project) = Exit false 5 (run_result empty_project) /\
  main recovering = Exit true 2 (run_result healthy_project) /\
  main_loop 0 recovering =
  Crash (mkExn "UnboundLocalError"
           "cannot access local variable 'results' where it is not associated with a value")
        0.
Proof. by_computation. Qed.

(** * Further properties of the checks *)

(** ** What a check knows about the place it reports *)

Lemma ok_when_true (P : Issue -> Prop) (c : bool) (body : M unit) :
  (c = true -> emits_ok P body) -> emits_ok P (when c body).
Proof. intros H. destruct c; [apply H; reflexivity | apply ok_ret]. Qed.

Lemma emits_when_true (P : Issue -> Prop) (c : bool) (body : M unit) :
  (c = true -> emits P body) -> emits P (when c body).
Proof. intros H. destruct c; [apply H; reflexivity | apply emits_ret]. Qed.

Lemma emits_for_each_in {A : Type} (P : Issue -> Prop) (l : list A) (body : A -> M unit) :
  (forall x, In x l -> emits P (body x)) -> emits P (for_each l body).
Proof.
  induction l as [|x l IH]; intros H; cbn [for_each].
  - apply emits_ret.
  - apply emits_bind; [apply H; left; reflexivity|].
    intros _. apply IH. intros y Hy. apply H. right. exact Hy.
Qed.

Lemma ok_for_each_in {A : Type} (P : Issue -> Prop) (l : list A) (body : A -> M unit) :
  (forall x, In x l -> emits_ok P (body x)) -> emits_ok P (for_each l body).
Proof.
  induction l as [|x l IH]; intros H; cbn [for_each].
  - apply ok_ret.
  - apply ok_bind; [apply H; left; reflexivity|].
    apply IH. intros y Hy. apply H. right. exact Hy.
Qed.

Lemma enumerate_from {A : Type} (l : list A) : forall (start i : Z) (a : A),
  In (i, a) (enumerate start l) -> start <= i.
Proof.
  induction l as [|x l IH]; intros start i a; cbn [enumerate In]; [tauto|].
  intros [[= <- _]|H]; [lia|]. apply IH in H. lia.
Qed.

Lemma int_of_digits_nonneg (s : string) : 0 <= int_of_digits s.
Proof.
  unfold int_of_digits.
  cut (forall acc, 0 <= acc ->
         0 <= (fix go (acc : Z) (s : string) {struct s} : Z :=
                 match s with
                 | EmptyString => acc
                 | String c s' => go (10 * acc + Z.of_nat (ord c - 48)) s'
                 end) acc s);
    [intros H; apply H; lia|].
  induction s as [|c s IH]; intros acc Hacc; [exact Hacc|].
  apply IH. lia.
Qed.

Ltac wf_side :=
  match goal with
  | |- _ -> _ =>
      let H := fresh in
      intros H;
      first [ discriminate H | (vm_compute in H; discriminate H) | wf_side ]
  | |- _ => first [ reflexivity | lia | assumption | apply int_of_digits_nonneg ]
  end.

Ltac wf_issue :=
  unfold well_formed_issue;
  cbn [severity category line_number code_snippet file_path description];
  repeat split; wf_side.

Ltac wf_step :=
  match goal with
  | |- emits_ok _ (ret tt) => apply ok_ret
  | |- emits_ok _ (_add_issue _ _ _ _ _ _) => apply ok_add_issue; wf_issue
  | |- emits_ok _ (try_except _ _) => apply ok_try; [|intros ?]
  | |- emits_ok _ (for_each (enumerate _ _) _) =>
      let x := fresh "x" in let H := fresh "Hin" in
      apply ok_for_each_in; intros x H; destruct x; apply enumerate_from in H;
      cbn beta iota
  | |- emits_ok _ (for_each _ _) => apply ok_for_each; intros ?
  | |- emits_ok _ (when _ _) => apply ok_when_true; intros ?
  | |- emits_ok _ (bind _ _) => apply ok_bind
  | |- emits _ (ret _) => apply emits_ret
  | |- emits _ (lift _) => apply emits_lift
  | |- emits _ (for_each (enumerate _ _) _) =>
      let x := fresh "x" in let H := fresh "Hin" in
      apply emits_for_each_in; intros x H; destruct x; apply enumerate_from in H;
      cbn beta iota
  | |- emits _ (for_each _ _) => apply emits_for_each; intros ?
  | |- emits _ (when _ _) => apply emits_when_true; intros ?
  | |- emits _ (bind _ _) => apply emits_bind; [|intros ?]
  | |- emits _ (_add_issue _ _ _ _ _ _) => apply emits_of_ok
  | |- emits _ (try_except _ _) => apply emits_of_ok
  | |- _ (if ?c then _ else _) => destruct c eqn:?
  | |- _ (match ?x with _ => _ end) => destruct x eqn:?
  | |- _ (let '(_, _) := ?x in _) => destruct x
  end.

Ltac wf := repeat wf_step.

Section ChecksWellFormed.
Variable w : World.

Lemma wf_check_typescript_compilation :
  emits_ok well_formed_issue (_check_typescript_compilation w).
Proof. unfold _check_typescript_compilation, _parse_typescript_error. wf. Qed.

Lemma wf_check_missing_dependencies :
  emits_ok well_formed_issue (_check_missing_dependencies w).
Proof. unfold _check_missing_dependencies. wf. Qed.

Lemma wf_check_database_schema_consistency :
  emits_ok well_formed_issue (_check_database_schema_consistency w).
Proof. unfold _check_database_schema_consistency. wf. Qed.

Lemma wf_check_api_route_consistency :
  emits_ok well_formed_issue (_check_api_route_consistency w).
Proof.
  unfold _check_api_route_consistency, _check_server_routes, _check_client_api_calls. wf.
Qed.

Lemma wf_for_typescript_files (body : Path -> M unit) :
  (forall p, str_in "node_modules" (Path_str p) = false ->
             emits_ok well_formed_issue (body p)) ->
  emits_ok well_formed_issue (for_typescript_files w body).
Proof. intros H. unfold for_typescript_files. wf. apply H. assumption. Qed.

Lemma wf_check_import_export_issues :
  emits_ok well_formed_issue (_check_import_export_issues w).
Proof.
  apply wf_for_typescript_files. intros p Hp. unfold _check_file_imports. wf.
Qed.

Lemma wf_check_component_structure :
  emits_ok well_formed_issue (_check_component_structure w).
Proof. unfold _check_component_structure, _check_react_component. wf. Qed.

Lemma wf_check_react_hooks_usage :
  emits_ok well_formed_issue (_check_react_hooks_usage w).
Proof. unfold _check_react_hooks_usage, _check_hooks_in_file. wf. Qed.

Lemma wf_check_type_safety : emits_ok well_formed_issue (_check_type_safety w).
Proof.
  apply wf_for_typescript_files. intros p Hp. unfold _check_types_in_file. wf.
Qed.

Lemma wf_check_brand_color_compliance :
  emits_ok well_formed_issue (_check_brand_color_compliance w).
Proof.
  unfold _check_brand_color_compliance. apply ok_bind.
  - unfold _check_colors_in_css. wf.
  - apply wf_for_typescript_files. intros p Hp. unfold _check_colors_in_tsx. wf.
Qed.

Lemma wf_check_configuration_files :
  emits_ok well_formed_issue (_check_configuration_files w).
Proof.
  unfold _check_configuration_files, _check_tsconfig, _check_package_scripts. wf.
Qed.

Lemma wf_check_environment_variables :
  emits_ok well_formed_issue (_check_environment_variables w).
Proof.
  apply wf_for_typescript_files. intros p Hp. unfold _check_env_vars_in_file. wf.
Qed.

Lemma wf_check_code_quality : emits_ok well_formed_issue (_check_code_quality w).
Proof.
  apply wf_for_typescript_files. intros p Hp. unfold _check_quality_in_file. wf.
Qed.

Lemma wf_check_documentation : emits_ok well_formed_issue (_check_documentation w).
Proof. unfold _check_documentation. wf. Qed.

Lemma all_reported_well_formed : Forall well_formed_issue (all_reported w).
Proof.
  assert (H : forall c, emits_ok well_formed_issue (c w) ->
                        Forall well_formed_issue (reported c w)).
  { intros c (l & Hl & Hc). unfold reported. rewrite Hc. exact Hl. }
  unfold all_reported, rule_checks. cbn [flat_map].
  repeat (apply Forall_app; split); try apply Forall_nil; apply H.
  - apply wf_check_typescript_compilation.
  - apply wf_check_missing_dependencies.
  - apply wf_check_database_schema_consistency.
  - apply wf_check_api_route_consistency.
  - apply wf_check_import_export_issues.
  - apply wf_check_component_structure.
  - apply wf_check_react_hooks_usage.
  - apply wf_check_type_safety.
  - apply wf_check_brand_color_compliance.
  - apply wf_check_configuration_files.
  - apply wf_check_environment_variables.
  - apply wf_check_code_quality.
  - apply wf_check_documentation.
Qed.

End ChecksWellFormed.

(** ** Properties of every issue of a run *)

(** X1. Every issue of a run is filed with a severity its category allows
    (the table [allowed_severities]), has a line number that is not
    negative, at least 1 for the categories reported per line, and an empty
    code snippet. *)
Theorem issue_classification (w : World) :
  Forall (fun i =>
            existsb (Severity_eqb (severity i)) (allowed_severities (category i)) = true /\
            0 <= line_number i /\
            (reports_lines (category i) = true -> 1 <= line_number i) /\
            code_snippet i = "")
         (issues (run_result w)).
Proof.
  rewrite issues_run_result.
  eapply Forall_impl; [|apply all_reported_well_formed].
  intros i (H1 & H2 & H3 & H4 & _). auto.
Qed.

(** X2. The checks over the TypeScript patterns never report a file whose
    path contains node_modules (categories Imports, Type Safety, Environment
    and Code Quality), and an Environment issue is always about a file whose
    path contains client/src. *)
Theorem issue_places (w : World) :
  Forall (fun i =>
            (skips_node_modules (category i) = true ->
             str_in "node_modules" (file_path i) = false) /\
            (category i = "Environment" -> str_in "client/src" (file_path i) = true))
         (issues (run_result w)).
Proof.
  rewrite issues_run_result.
  eapply Forall_impl; [|apply all_reported_well_formed].
  intros i (_ & _ & _ & _ & H5 & H6 & _). auto.
Qed.

(** The style-sheet check and the checks of the client components have no
    such guard: files inside node_modules are reported by them. *)
Example node_modules_reported_by_other_checks :
  map summary (issues (run_result vendored_project)) =
  [("package.json", 0, CRITICAL, "Dependencies", "package.json not found");
   ("shared/schema.ts", 0, CRITICAL, "Database", "Database schema file not found");
   ("/proj/client/src/node_modules/Lib.tsx", 0, MEDIUM, "React",
    "Component missing default export");
   ("/proj/client/src/node_modules/lib.css", 1, MEDIUM, "Brand Colors",
    "Non-brand color found: #ff");
   ("tsconfig.json", 0, HIGH, "Configuration", "tsconfig.json not found");
   ("README.md", 0, LOW, "Documentation", "README file not found")].
Proof. vm_compute. reflexivity. Qed.

Lemma allowed_high_only (i : Issue) :
  category i = "Imports" ->
  existsb (Severity_eqb (severity i)) (allowed_severities (category i)) = true ->
  severity i = HIGH.
Proof.
  intros -> H. cbn in H. destruct (severity i); try discriminate H; reflexivity.
Qed.

(** X3. Every import issue of a run is answered by [generate_fixes]: the
    advice naming its file and line is among the fixes. *)
Theorem import_issues_get_a_fix (w : World) :
  Forall (fun i => category i = "Imports" ->
                   _generate_fix_command i = Some (import_fix i) /\
                   In (import_fix i) (generate_fixes (run_result w)))
         (issues (run_result w)).
Proof.
  apply Forall_forall. intros i Hi Hcat.
  pose proof (all_reported_well_formed w) as Hwf.
  rewrite Forall_forall in Hwf.
  assert (Hi' : In i (all_reported w)) by (rewrite <- issues_run_result; exact Hi).
  destruct (Hwf i Hi') as (Hsev & _ & _ & _ & _ & _ & Hnf).
  apply (allowed_high_only i Hcat) in Hsev. specialize (Hnf Hcat).
  assert (Hcmd : _generate_fix_command i = Some (import_fix i)).
  { unfold _generate_fix_command, import_fix. rewrite Hcat, Hnf. reflexivity. }
  split; [exact Hcmd|].
  rewrite generate_fixes_spec. apply in_flat_map. exists i. split.
  - apply in_or_app. right. unfold by_sev. apply filter_In. split; [exact Hi|].
    rewrite Hsev. reflexivity.
  - unfold fix_text. rewrite Hcmd. left. reflexivity.
Qed.

(** ** Fix generation and the scorer *)

Lemma fix_text_length (l : list Issue) :
  (List.length (flat_map fix_text l) <= List.length l)%nat.
Proof.
  induction l as [|x l IH]; [reflexivity|].
  cbn [flat_map]. rewrite length_app. cbn [List.length].
  unfold fix_text at 1. destruct (_generate_fix_command x); cbn [List.length]; lia.
Qed.

Lemma by_sev_filter (s : Severity) (f : Issue -> bool) (l : list Issue) :
  (forall i, Severity_eqb (severity i) s = true -> f i = true) ->
  by_sev s (filter f l) = by_sev s l.
Proof.
  intros H. unfold by_sev. induction l as [|x l IH]; [reflexivity|].
  cbn [filter]. destruct (f x) eqn:E; cbn [filter]; rewrite IH; [reflexivity|].
  destruct (Severity_eqb (severity x) s) eqn:E'; [|reflexivity].
  rewrite (H x E') in E. discriminate E.
Qed.

(** X4. [generate_fixes] returns the advice for the CRITICAL issues followed
    by the advice for the HIGH issues, each group in the order of the issue
    list, at most one string per such issue; MEDIUM and LOW issues have no
    influence on its result. *)
Theorem generate_fixes_order (r : AuditResults) :
  generate_fixes r =
  (flat_map fix_text (by_sev CRITICAL (issues r))
   ++ flat_map fix_text (by_sev HIGH (issues r)))%list /\
  (List.length (generate_fixes r)
   <= List.length (by_sev CRITICAL (issues r)) + List.length (by_sev HIGH (issues r)))%nat /\
  generate_fixes (set_issues (filter is_critical_or_high (issues r)) r) = generate_fixes r.
Proof.
  split; [|split].
  - rewrite generate_fixes_spec, flat_map_app. reflexivity.
  - rewrite generate_fixes_spec, <- length_app. apply fix_text_length.
  - rewrite !generate_fixes_spec. cbn [set_issues issues].
    rewrite !by_sev_filter; [reflexivity| |];
      intros i Hi; unfold is_critical_or_high; cbn [existsb];
      destruct (severity i); try discriminate Hi; reflexivity.
Qed.

Lemma count_sev_zero (s : Severity) (l : list Issue) :
  count_sev s l = 0 -> by_sev s l = [].
Proof.
  unfold count_sev, by_sev. destruct (filter _ l); [reflexivity|].
  cbn [List.length]. lia.
Qed.

(** X5. When the scorer gives a pass rate of 100 or more, [generate_fixes]
    has nothing to offer: its result is empty. *)
Theorem converged_leaves_no_fix (l : list Issue) :
  converged (calculate_results (collected l)) = true ->
  generate_fixes (calculate_results (collected l)) = [].
Proof.
  intros H. apply converged_true in H.
  destruct (pass_rate_collected l) as (_ & _ & _ & Hle & Hiff & _). cbn zeta in Hle, Hiff.
  assert (E : (pass_rate (calculate_results (collected l)) == 100)%Q)
    by (apply Qle_antisym; assumption).
  apply Hiff in E. destruct E as [Ec Eh].
  destruct (calculate_collected l) as (Hi & _).
  rewrite generate_fixes_spec, Hi.
  rewrite (count_sev_zero _ _ Ec), (count_sev_zero _ _ Eh). reflexivity.
Qed.

Lemma converged_leaves_no_fix_witness :
  generate_fixes (calculate_results (collected [one_low; one_low])) = [].
Proof.
  apply (converged_leaves_no_fix [one_low; one_low]). vm_compute. reflexivity.
Defined.

(** The converse fails: a run far from 100 may get no advice at all. *)
Example no_fix_without_convergence :
  converged (run_result empty_project) = false /\
  generate_fixes (run_result empty_project) = [].
Proof. by_computation. Qed.

(** ** Running twice without the reset *)

Lemma count_sev_app (s : Severity) (a b : list Issue) :
  count_sev s (a ++ b) = count_sev s a + count_sev s b.
Proof. unfold count_sev. rewrite filter_app, length_app. lia. Qed.

(** X6. A second [run_audit] on the same auditor, without the reset [main]
    does between iterations, returns every issue twice and three times the
    counts of the first run; the counts of that result agree with its issue
    list only when the project has no issue at all. *)
Theorem rerun_without_reset (w : World) :
  let r1 := run_result w in
  let r2 := snd (run_audit w r1) in
  issues r2 = (issues r1 ++ issues r1)%list /\
  critical_count r2 = 3 * critical_count r1 /\
  high_count r2 = 3 * high_count r1 /\
  medium_count r2 = 3 * medium_count r1 /\
  low_count r2 = 3 * low_count r1 /\
  (counts_match r2 <-> issues r1 = []).
Proof.
  cbn zeta. rewrite run_audit_eq. cbn [snd].
  unfold run_result. rewrite run_audit_fresh. cbn [snd].
  set (l := all_reported w).
  destruct (calculate_collected l) as (Hi & _ & Hc & Hh & Hm & Hl & _). cbn zeta in *.
  set (r1 := calculate_results (collected l)) in *.
  destruct (calculate_adds (add_issues l r1)) as (Hi2 & _ & Hc2 & Hh2 & Hm2 & Hl2).
  assert (Ei : issues (add_issues l r1) = (l ++ l)%list)
    by (unfold add_issues, set_issues; cbn [issues]; rewrite Hi; reflexivity).
  assert (Ec : critical_count (add_issues l r1) = critical_count r1) by reflexivity.
  assert (Eh : high_count (add_issues l r1) = high_count r1) by reflexivity.
  assert (Em : medium_count (add_issues l r1) = medium_count r1) by reflexivity.
  assert (El : low_count (add_issues l r1) = low_count r1) by reflexivity.
  rewrite Ei in *. rewrite Ec in Hc2. rewrite Eh in Hh2. rewrite Em in Hm2. rewrite El in Hl2.
  rewrite count_sev_app in Hc2, Hh2, Hm2, Hl2.
  rewrite Hi2, Hc2, Hh2, Hm2, Hl2, Hi, Hc, Hh, Hm, Hl.
  split; [reflexivity|]. repeat (split; [lia|]).
  unfold counts_match. rewrite Hi2, Hc2, Hh2, Hm2, Hl2, Hc, Hh, Hm, Hl.
  rewrite !count_sev_app, length_app.
  pose proof (count_sev_total l). 
  pose proof (count_sev_nonneg CRITICAL l). pose proof (count_sev_nonneg HIGH l).
  pose proof (count_sev_nonneg MEDIUM l). pose proof (count_sev_nonneg LOW l).
  split.
  - intros (A & B & C & D & _). destruct l; [reflexivity|]. cbn [List.length] in *. lia.
  - intros ->. cbn. repeat split.
Qed.

(** ** How [main] ends *)




(** ** The dependency check *)

Lemma flat_map_if {A B : Type} (f : A -> bool) (h : A -> B) (l : list A) :
  flat_map (fun x => if f x then [h x] else []) l = map h (filter f l).
Proof.
  induction l as [|x l IH]; [reflexivity|].
  cbn [flat_map filter]. destruct (f x); cbn [map app]; rewrite IH; reflexivity.
Qed.

Lemma when_add_issue (c : bool) (i : Issue) (r : AuditResults) :
  when c (_add_issue (file_path i) (line_number i) (severity i) (category i)
                     (description i) (fix_suggestion i)) r
  = (Ret tt, add_issues (if c then [mkIssue (file_path i) (line_number i) (severity i)
                                      (category i) (description i) (fix_suggestion i) ""]
                         else []) r).
Proof.
  destruct c; cbn [when]; [reflexivity|]. unfold ret. rewrite add_issues_nil. reflexivity.
Qed.

Lemma dependency_loop (deps : list (string * json)) (r : AuditResults) :
  for_each required_deps (fun dep =>
    when (negb (has_key dep deps))
      (_add_issue "package.json" 0 HIGH
         "Dependencies" ("Missing required dependency: " ++ dep)
         ("Add " ++ dep ++ " to dependencies or devDependencies"))) r
  = (Ret tt,
     add_issues (map dependency_issue
                     (filter (fun dep => negb (has_key dep deps)) required_deps)) r).
Proof.
  rewrite <- flat_map_if.
  apply (for_each_appends _ (fun dep =>
           if negb (has_key dep deps) then [dependency_issue dep] else [])).
  intros dep r'. apply (when_add_issue _ (dependency_issue dep)).
Qed.

(** X8. The dependency check reports one CRITICAL issue when package.json
    is absent; when it parses to an object whose two dependency sections
    are objects (or absent), it reports one HIGH issue for each required
    dependency declared in neither section, in the order of the list of
    required dependencies, and nothing when all six are declared; in every
    other case (unreadable file, text that does not parse, a value of
    another shape) it reports exactly one CRITICAL issue. *)
Theorem dependency_check_cases (w : World) :
  (Path_exists w (package_json_path w) = false ->
   reported _check_missing_dependencies w =
   [mkIssue "package.json" 0 CRITICAL "Dependencies" "package.json not found"
            "Create package.json with proper dependencies" ""]) /\
  (forall text kv a b,
     Path_exists w (package_json_path w) = true ->
     read_text w (package_json_path w) = Ret text ->
     json_loads w text = Ret (JObj kv) ->
     section_of "dependencies" kv = JObj a ->
     section_of "devDependencies" kv = JObj b ->
     reported _check_missing_dependencies w = map dependency_issue (undeclared a b) /\
     (undeclared a b = [] <->
      forall dep, In dep required_deps -> has_key dep a = true \/ has_key dep b = true)) /\
  (dependencies_failure (reported _check_missing_dependencies w) \/
   exists a b, reported _check_missing_dependencies w = map dependency_issue (undeclared a b)).
Proof.
  unfold reported, _check_missing_dependencies. fold (package_json_path w).
  split; [|split].
  - intros ->. reflexivity.
  - intros text kv a b -> Hread Hparse Ha Hb. cbn [negb].
    unfold try_except, bind, lift. rewrite Hread, Hparse. cbn [py_get].
    fold (section_of "dependencies" kv) (section_of "devDependencies" kv).
    rewrite Ha, Hb. cbn [py_merge]. rewrite dependency_loop. cbn [snd].
    split; [reflexivity|].
    unfold undeclared. split.
    + intros E dep Hdep.
      destruct (has_key dep a) eqn:Ea; [left; reflexivity|]. right.
      destruct (has_key dep b) eqn:Eb; [reflexivity|]. exfalso.
      assert (Hin : In dep (filter (fun d => negb (has_key d (a ++ b)%list)) required_deps)).
      { apply filter_In. split; [exact Hdep|].
        unfold has_key in *. rewrite existsb_app, Ea, Eb. reflexivity. }
      rewrite E in Hin. exact Hin.
    + intros H. destruct (filter _ required_deps) as [|dep rest] eqn:E; [reflexivity|].
      exfalso.
      assert (Hin : In dep (filter (fun d => negb (has_key d (a ++ b)%list)) required_deps))
        by (rewrite E; left; reflexivity).
      apply filter_In in Hin. destruct Hin as [Hdep Hneg].
      unfold has_key in *. rewrite existsb_app in Hneg.
      destruct (H dep Hdep) as [E1|E1]; rewrite E1 in Hneg;
        [|rewrite orb_true_r in Hneg]; discriminate Hneg.
  - destruct (Path_exists w (package_json_path w)); cbn [negb];
      [|left; eexists; eexists; reflexivity].
    unfold try_except, bind, lift.
    destruct (read_text w (package_json_path w)) as [text|e];
      [|left; eexists; eexists; reflexivity].
    destruct (json_loads w text) as [data|e];
      [|left; eexists; eexists; reflexivity].
    destruct data as [| | | | | |kv]; cbn [py_get];
      try (left; eexists; eexists; reflexivity).
    fold (section_of "dependencies" kv) (section_of "devDependencies" kv).
    destruct (section_of "dependencies" kv) as [| | | | | |a]; cbn [py_merge];
      try (left; eexists; eexists; reflexivity).
    destruct (section_of "devDependencies" kv) as [| | | | | |b]; cbn [py_merge];
      try (left; eexists; eexists; reflexivity).
    right. exists a, b. rewrite dependency_loop. reflexivity.
Qed.

(** One missing dependency; a manifest of the wrong shape. *)
Example dependency_check_samples :
  map summary (reported _check_missing_dependencies no_wouter_project) =
  [("package.json", 0, HIGH, "Dependencies", "Missing required dependency: wouter")] /\
  map summary (reported _check_missing_dependencies list_manifest_project) =
  [("package.json", 0, CRITICAL, "Dependencies",
    "Failed to parse package.json: 'list' object has no attribute 'get'")] /\
  reported _check_missing_dependencies healthy_project = [].
Proof. by_computation. Qed.

(** ** The configuration checks *)

(** X9. [_check_tsconfig] either reports its findings, the MEDIUM issue for
    a strict mode that is not enabled and the LOW issue for missing path
    mappings, or gives up with exactly one HIGH issue carrying the error
    message; the two never mix.  It reports the findings when the file
    parses to an object whose compilerOptions is an object or absent, and
    gives up when the file cannot be read, does not parse, or has another
    shape. *)
Theorem tsconfig_check_cases (w : World) (p : Path) (r : AuditResults) :
  (forall text kv opts,
     read_text w p = Ret text -> json_loads w text = Ret (JObj kv) ->
     section_of "compilerOptions" kv = JObj opts ->
     _check_tsconfig w p r = (Ret tt, add_issues (tsconfig_findings p opts) r)) /\
  (forall e, read_text w p = Raise e ->
     _check_tsconfig w p r = (Ret tt, add_issues [tsconfig_failure p e] r)) /\
  ((exists e, _check_tsconfig w p r = (Ret tt, add_issues [tsconfig_failure p e] r)) \/
   (exists opts, _check_tsconfig w p r = (Ret tt, add_issues (tsconfig_findings p opts) r))).
Proof.
  assert (Hobj : forall text kv opts,
     read_text w p = Ret text -> json_loads w text = Ret (JObj kv) ->
     section_of "compilerOptions" kv = JObj opts ->
     _check_tsconfig w p r = (Ret tt, add_issues (tsconfig_findings p opts) r)).
  { intros text kv opts Hread Hparse Hopts.
    unfold _check_tsconfig, try_except, bind, lift. rewrite Hread, Hparse. cbn [py_get].
    fold (section_of "compilerOptions" kv). rewrite Hopts. cbn [py_get py_in].
    fold (strict_enabled opts). fold (has_key "paths" opts).
    unfold tsconfig_findings, strict_issue, paths_issue, _add_issue, ret.
    destruct r.
    destruct (strict_enabled opts), (has_key "paths" opts); cbn [negb when app];
      unfold add_issues, set_issues;
      cbn [issues total_files_scanned pass_rate critical_count high_count
           medium_count low_count];
      rewrite <- ?app_assoc, ?app_nil_r; reflexivity. }
  split; [exact Hobj|]. split.
  - intros e He. unfold _check_tsconfig, try_except, bind, lift. rewrite He. reflexivity.
  - destruct (read_text w p) as [text|e] eqn:Hread;
      [|left; exists e; unfold _check_tsconfig, try_except, bind, lift;
        rewrite Hread; reflexivity].
    destruct (json_loads w text) as [config|e] eqn:Hparse;
      [|left; exists e; unfold _check_tsconfig, try_except, bind, lift;
        rewrite Hread, Hparse; reflexivity].
    destruct config as [| | | | | |kv];
      try (left; eexists; unfold _check_tsconfig, try_except, bind, lift;
           rewrite Hread, Hparse; reflexivity).
    destruct (section_of "compilerOptions" kv) as [| | | | | |opts] eqn:Hopts;
      try (left; eexists; unfold _check_tsconfig, try_except, bind, lift;
           rewrite Hread, Hparse; cbn [py_get];
           fold (section_of "compilerOptions" kv); rewrite Hopts; reflexivity).
    right. exists opts. apply (Hobj text kv opts); auto.
Qed.

Lemma bind_lift_ret {A B : Type} (a : A) (k : A -> M B) (r : AuditResults) :
  bind (lift (Ret a)) k r = k a r.
Proof. reflexivity. Qed.

Lemma scripts_loop (p : Path) (scripts : json) (present : string -> bool)
    (r : AuditResults) :
  (forall script, py_in script scripts = Ret (present script)) ->
  for_each required_scripts (fun script =>
    bind (lift (py_in script scripts)) (fun present =>
      when (negb present)
        (_add_issue (Path_str p) 0 LOW
           "Configuration" ("Missing " ++ script ++ " script")
           ("Add " ++ script ++ " script to package.json")))) r
  = (Ret tt, add_issues (map (script_issue p) (missing_scripts present)) r).
Proof.
  intros H. unfold missing_scripts. rewrite <- flat_map_if.
  apply (for_each_appends _ (fun script =>
           if negb (present script) then [script_issue p script] else [])).
  intros script r'. unfold bind, lift. rewrite H.
  apply (when_add_issue _ (script_issue p script)).
Qed.

(** X10. [_check_package_scripts] never reports a failure: whatever it
    finds at the path, it returns normally and reports only LOW issues, one
    for each of dev, build and start that is missing, in that order.  When
    the file parses to an object whose scripts entry is an object, the
    missing scripts are those that are not keys of it; when the file cannot
    be read or does not parse, nothing is reported. *)
Theorem package_scripts_cases (w : World) (p : Path) (r : AuditResults) :
  (exists present : string -> bool,
     _check_package_scripts w p r =
     (Ret tt, add_issues (map (script_issue p) (missing_scripts present)) r)) /\
  (forall text kv scripts,
     read_text w p = Ret text -> json_loads w text = Ret (JObj kv) ->
     section_of "scripts" kv = JObj scripts ->
     _check_package_scripts w p r =
     (Ret tt,
      add_issues (map (script_issue p) (missing_scripts (fun s => has_key s scripts))) r)) /\
  ((forall text, read_text w p = Ret text -> exists e, json_loads w text = Raise e) ->
   _check_package_scripts w p r = (Ret tt, r)).
Proof.
  unfold _check_package_scripts, try_except.
  split; [|split].
  - assert (Hnone : exists present : string -> bool,
              (Ret tt, r) =
              (Ret tt, add_issues (map (script_issue p) (missing_scripts present)) r)).
    { exists (fun _ => true).
      change (map (script_issue p) (missing_scripts (fun _ => true))) with (@nil Issue).
      rewrite add_issues_nil. reflexivity. }
    destruct (read_text w p) as [text|e]; [rewrite bind_lift_ret | exact Hnone].
    destruct (json_loads w text) as [data|e]; [rewrite bind_lift_ret | exact Hnone].
    destruct data as [| | | | | |kv]; cbn [py_get]; try exact Hnone.
    rewrite bind_lift_ret. fold (section_of "scripts" kv).
    destruct (section_of "scripts" kv) as [| | | |s|l|kv'].
    1-4: exact Hnone.
    + exists (fun script => str_in script s).
      rewrite (scripts_loop p _ (fun script => str_in script s));
        [reflexivity | intros; reflexivity].
    + exists (fun script => existsb (json_is_str script) l).
      rewrite (scripts_loop p _ (fun script => existsb (json_is_str script) l));
        [reflexivity | intros; reflexivity].
    + exists (fun script => has_key script kv').
      rewrite (scripts_loop p _ (fun script => has_key script kv'));
        [reflexivity | intros; reflexivity].
  - intros text kv scripts Hread Hparse Hsec.
    rewrite Hread, bind_lift_ret, Hparse, bind_lift_ret. cbn [py_get].
    rewrite bind_lift_ret. fold (section_of "scripts" kv). rewrite Hsec.
    rewrite (scripts_loop p _ (fun s => has_key s scripts));
      [reflexivity | intros; reflexivity].
  - intros H. destruct (read_text w p) as [text|e]; [|reflexivity].
    destruct (H text eq_refl) as [e He]. rewrite bind_lift_ret, He. reflexivity.
Qed.

(** ** The schema check *)

(** X11. The schema check reports one CRITICAL issue when shared/schema.ts
    is absent, and one HIGH issue with the error message when it cannot be
    read; when it can be read, it reports a HIGH issue if the text lacks
    export const and then a MEDIUM issue if it lacks export type, so a
    readable schema never yields a CRITICAL issue. *)
Theorem schema_check_cases (w : World) :
  (Path_exists w (schema_path w) = false ->
   reported _check_database_schema_consistency w =
   [mkIssue "shared/schema.ts" 0 CRITICAL "Database" "Database schema file not found"
            "Create shared/schema.ts with Drizzle schema definitions" ""]) /\
  (forall content,
     Path_exists w (schema_path w) = true -> read_text w (schema_path w) = Ret content ->
     reported _check_database_schema_consistency w = schema_findings content) /\
  (forall e,
     Path_exists w (schema_path w) = true -> read_text w (schema_path w) = Raise e ->
     reported _check_database_schema_consistency w =
     [mkIssue "shared/schema.ts" 0 HIGH "Database"
              ("Failed to read schema file: " ++ exn_msg e)
              "Fix schema file accessibility" ""]).
Proof.
  unfold reported, _check_database_schema_consistency. fold (schema_path w).
  split; [|split].
  - intros ->. reflexivity.
  - intros content -> Hread. cbn [negb]. unfold try_except, bind, lift. rewrite Hread.
    unfold schema_findings.
    destruct (str_in "export const" content), (str_in "export type" content); reflexivity.
  - intros e -> Hread. cbn [negb]. unfold try_except, bind, lift. rewrite Hread.
    reflexivity.
Qed.

(** The three cases of the schema check on sample projects. *)
Example schema_check_samples :
  map summary (reported _check_database_schema_consistency empty_project) =
  [("shared/schema.ts", 0, CRITICAL, "Database", "Database schema file not found")] /\
  map summary (reported _check_database_schema_consistency sample_project) =
  [("shared/schema.ts", 0, MEDIUM, "Database", "No type exports found in schema")] /\
  reported _check_database_schema_consistency healthy_project = [].
Proof. by_computation. Qed.

(** ** The documentation check *)

Lemma strip_prefix_app (pre t : list string) : strip_prefix pre (pre ++ t) = Some t.
Proof.
  induction pre as [|x pre IH]; [reflexivity|].
  cbn [app strip_prefix]. rewrite String.eqb_refl. exact IH.
Qed.

Lemma strip_prefix_some (pre l t : list string) :
  strip_prefix pre l = Some t -> l = (pre ++ t)%list.
Proof.
  revert l. induction pre as [|x pre IH]; intros l; cbn [strip_prefix].
  - intros [= ->]. reflexivity.
  - destruct l as [|y l]; [discriminate|].
    destruct (String.eqb_spec x y) as [->|_]; [|discriminate].
    intros H. apply IH in H. rewrite H. reflexivity.
Qed.

Lemma in_entries_below (w : World) (base : Path) (rel : list string) :
  In rel (entries_below w base) <->
  rel <> [] /\ exists nd, In ((parts (resolve (cwd w) base) ++ rel)%list, nd) (fs w).
Proof.
  unfold entries_below. rewrite in_flat_map. split.
  - intros ([q nd] & Hin & H). cbn [fst] in H.
    destruct (strip_prefix _ q) as [[|x t]|] eqn:E; cbn [In] in H; try contradiction.
    destruct H as [<-|[]]. split; [discriminate|].
    exists nd. apply strip_prefix_some in E. rewrite <- E. exact Hin.
  - intros (Hne & nd & Hin). eexists. split; [exact Hin|].
    cbn [fst]. rewrite strip_prefix_app.
    destruct rel as [|x t]; [contradiction|]. left. reflexivity.
Qed.

Lemma fnmatch_any (n : string) :
  (fix star (n : string) : bool :=
     fnmatch "" n || match n with String _ n' => star n' | EmptyString => false end) n
  = true.
Proof.
  induction n as [|c n IH]; [reflexivity|].
  rewrite IH. apply orb_true_r.
Qed.

(** A pattern made of literal characters and a final star matches the
    names that start with the literal part. *)
Lemma fnmatch_literal_star (lit : string) : forall n : string,
  (forall c, In c (list_ascii_of_string lit) -> c <> "*"%char) ->
  fnmatch (lit ++ "*") n = String.prefix lit n.
Proof.
  induction lit as [|a lit IH]; intros n Hlit.
  - cbn [append fnmatch Ascii.eqb Bool.eqb]. rewrite fnmatch_any. destruct n; reflexivity.
  - cbn [append fnmatch].
    destruct (Ascii.eqb_spec a "*") as [E|_];
      [exfalso; apply (Hlit a); [left; reflexivity | exact E]|].
    destruct n as [|b n]; [reflexivity|]. cbn [String.prefix].
    destruct (ascii_dec a b) as [<-|Hne].
    + rewrite Ascii.eqb_refl. cbn [andb]. apply IH.
      intros c Hc. apply Hlit. right. exact Hc.
    + destruct (Ascii.eqb_spec a b); [contradiction | reflexivity].
Qed.

Lemma fnmatch_readme (n : string) : fnmatch "README*" n = startswith n "README".
Proof.
  unfold startswith. apply (fnmatch_literal_star "README").
  intros c Hc. cbn in Hc.
  repeat (destruct Hc as [<-|Hc]; [discriminate|]). contradiction.
Qed.

(** X12. The documentation check is content when some entry directly in
    the project directory, a file or a directory, has a name that starts
    with README, and reports one LOW issue otherwise; entries deeper in the
    tree do not count. *)
Theorem documentation_check_cases (w : World) :
  ((exists nm nd, In ((root_dir w ++ [nm])%list, nd) (fs w) /\ startswith nm "README" = true) ->
   reported _check_documentation w = []) /\
  ((forall nm nd, In ((root_dir w ++ [nm])%list, nd) (fs w) -> startswith nm "README" = false) ->
   reported _check_documentation w = [readme_issue]).
Proof.
  unfold reported, _check_documentation, glob. cbn zeta. split.
  - intros (nm & nd & Hin & Hnm).
    assert (H : In [nm] (filter (fun rel => (List.length rel =? 1)%nat
                                            && fnmatch "README*" (last rel ""))
                                (entries_below w (root_path w)))).
    { apply filter_In. split.
      - apply in_entries_below. split; [discriminate|]. exists nd. exact Hin.
      - cbn [List.length last Nat.eqb andb]. rewrite fnmatch_readme. exact Hnm. }
    destruct (filter _ (entries_below w (root_path w))); [contradiction|]. reflexivity.
  - intros Hnone.
    destruct (filter _ (entries_below w (root_path w))) as [|rel rest] eqn:E; [reflexivity|].
    exfalso.
    assert (H : In rel (filter (fun rel => (List.length rel =? 1)%nat
                                           && fnmatch "README*" (last rel ""))
                               (entries_below w (root_path w))))
      by (rewrite E; left; reflexivity).
    apply filter_In in H. destruct H as [Hin Hm].
    apply andb_prop in Hm. destruct Hm as [Hlen Hm].
    destruct rel as [|nm [|y t]]; try discriminate Hlen.
    apply in_entries_below in Hin. destruct Hin as (_ & nd & Hin).
    cbn [last] in Hm. rewrite fnmatch_readme in Hm.
    rewrite (Hnone nm nd Hin) in Hm. discriminate Hm.
Qed.

(** A README in a subdirectory does not satisfy the check; a directory
    named README-old in the project directory does. *)
Example documentation_check_samples :
  reported _check_documentation
    (mkWorld (Path_of_str ".") ["proj"]
       [ (["proj"; "docs"], Dir); (["proj"; "docs"; "README.md"], File (Ret "x")) ]
       (Ret (0, "")) sample_json_loads)
  = [readme_issue] /\
  reported _check_documentation
    (mkWorld (Path_of_str ".") ["proj"]
       [ (["proj"; "README-old"], Dir) ] (Ret (0, "")) sample_json_loads)
  = [].
Proof. by_computation. Qed.

(** ** Parsing a diagnostic *)













(** A path with a parenthesised part is cut at the first place where the
    rest reads as a position: the issue is filed for the shorter path. *)
Example diagnostic_with_parenthesis :
  map summary
    (issues (snd (_parse_typescript_error
                    "src/a(1,2): error TS1: x(3,4): error TS2: y" AuditResults_new)))
  = [("src/a", 1, CRITICAL, "TypeScript", "Compilation error: x(3,4): error TS2: y")].
Proof. vm_compute. reflexivity. Qed.

(** ** Reports and the tests behind them *)

Ltac just_side :=
  match goal with
  | |- _ -> _ =>
      let H := fresh in
      intros H; first [ discriminate H | lia | just_side ]
  | |- exists _, _ =>
      eexists; split; [reflexivity|];
      first [ assumption
            | match goal with
              | E : negb ?b = true |- ?b = false => apply negb_true_iff; exact E
              end ]
  end.

Ltac just_issue :=
  unfold justified;
  cbn [severity category line_number code_snippet file_path description];
  repeat split; just_side.

Ltac just_step :=
  match goal with
  | |- emits_ok _ (ret tt) => apply ok_ret
  | |- emits_ok _ (_add_issue _ _ _ _ _ _) => apply ok_add_issue; just_issue
  | |- emits_ok _ (try_except _ _) => apply ok_try; [|intros ?]
  | |- emits_ok _ (for_each (enumerate _ _) _) =>
      let x := fresh "x" in let H := fresh "Hin" in
      apply ok_for_each_in; intros x H; destruct x; apply enumerate_from in H;
      cbn beta iota
  | |- emits_ok _ (for_each _ _) => apply ok_for_each_in; intros ? ?
  | |- emits_ok _ (when _ _) => apply ok_when_true; intros ?
  | |- emits_ok _ (bind _ _) => apply ok_bind
  | |- emits _ (ret _) => apply emits_ret
  | |- emits _ (lift _) => apply emits_lift
  | |- emits _ (for_each (enumerate _ _) _) =>
      let x := fresh "x" in let H := fresh "Hin" in
      apply emits_for_each_in; intros x H; destruct x; apply enumerate_from in H;
      cbn beta iota
  | |- emits _ (for_each _ _) => apply emits_for_each_in; intros ? ?
  | |- emits _ (when _ _) => apply emits_when_true; intros ?
  | |- emits _ (bind _ _) => apply emits_bind; [|intros ?]
  | |- emits _ (_add_issue _ _ _ _ _ _) => apply emits_of_ok
  | |- emits _ (try_except _ _) => apply emits_of_ok
  | |- _ (if ?c then _ else _) => destruct c eqn:?
  | |- _ (match ?x with _ => _ end) => destruct x eqn:?
  | |- _ (let '(_, _) := ?x in _) => destruct x
  end.

Ltac just := repeat just_step.

Section ChecksJustified.
Variable w : World.

Lemma just_for_typescript_files (body : Path -> M unit) :
  (forall p, emits_ok justified (body p)) ->
  emits_ok justified (for_typescript_files w body).
Proof. intros H. unfold for_typescript_files. just. apply H. Qed.

Lemma all_reported_justified : Forall justified (all_reported w).
Proof.
  assert (H : forall c, emits_ok justified (c w) -> Forall justified (reported c w)).
  { intros c (l & Hl & Hc). unfold reported. rewrite Hc. exact Hl. }
  unfold all_reported, rule_checks. cbn [flat_map].
  repeat (apply Forall_app; split); try apply Forall_nil; apply H.
  - unfold _check_typescript_compilation, _parse_typescript_error. just.
  - unfold _check_missing_dependencies. just.
  - unfold _check_database_schema_consistency. just.
  - unfold _check_api_route_consistency, _check_server_routes, _check_client_api_calls. just.
  - apply just_for_typescript_files. intros p. unfold _check_file_imports. just.
  - unfold _check_component_structure, _check_react_component. just.
  - unfold _check_react_hooks_usage, _check_hooks_in_file. just.
  - apply just_for_typescript_files. intros p. unfold _check_types_in_file. just.
  - unfold _check_brand_color_compliance. apply ok_bind.
    + unfold _check_colors_in_css. just.
    + apply just_for_typescript_files. intros p. unfold _check_colors_in_tsx. just.
  - unfold _check_configuration_files, _check_tsconfig, _check_package_scripts. just.
  - apply just_for_typescript_files. intros p. unfold _check_env_vars_in_file. just.
  - apply just_for_typescript_files. intros p. unfold _check_quality_in_file. just.
  - unfold _check_documentation. just.
Qed.

End ChecksJustified.

(** X14. No check reports what its own test accepts: in every run, a route
    named by a MEDIUM API Routes issue and a query key named by an API Calls
    issue do not start with /api/, a variable named by an Environment issue
    does not start with VITE_, a dependency named by a HIGH Dependencies
    issue is one of the six required ones, and a colour named by a Brand
    Colors issue of a style sheet is one of the forbidden substrings. *)
Theorem reports_are_justified (w : World) :
  Forall justified (issues (run_result w)).
Proof. rewrite issues_run_result. apply all_reported_justified. Qed.

(** ** The import check, line by line *)

Lemma check_file_imports_loop (w : World) (p : Path) :
  _check_file_imports w p =
  try_except
    (bind (lift (read_text w p)) (fun content =>
       for_each (enumerate 1 (split_lines content)) (import_line w p)))
    (fun _ => ret tt).
Proof. reflexivity. Qed.

Lemma import_line_eq (w : World) (p : Path) (i : Z) (line : string) :
  import_line w p (i, line) =
  match relative_import line with
  | Some import_path =>
      bind (lift (possible_files_of (import_target w p import_path))) (fun possible_files =>
        when (negb (existsb (Path_exists w) possible_files))
          (_add_issue (Path_str p) i HIGH
             "Imports" ("Import path not found: " ++ import_path)
             "Fix import path or create missing file"))
  | None => ret tt
  end.
Proof.
  unfold import_line, relative_import, import_target. cbn zeta.
  destruct (startswith (strip line) "import" && str_in "from" (strip line)); [|reflexivity].
  destruct (Re.search Pat.import_from (strip line)) as [m|]; [|reflexivity].
  destruct (startswith (found_group 1 m) "./" || startswith (found_group 1 m) "../");
    reflexivity.
Qed.


Lemma enumerate_app {A : Type} (a b : list A) : forall start : Z,
  enumerate start (a ++ b) =
  (enumerate start a ++ enumerate (start + Z.of_nat (List.length a)) b)%list.
Proof.
  induction a as [|x a IH]; intros start; cbn [app enumerate List.length].
  - rewrite Z.add_0_r. reflexivity.
  - rewrite IH. do 3 f_equal. lia.
Qed.

Lemma enumerate_below {A : Type} (l : list A) : forall (start i : Z) (a : A),
  In (i, a) (enumerate start l) -> i < start + Z.of_nat (List.length l).
Proof.
  induction l as [|x l IH]; intros start i a; cbn [enumerate In List.length]; [tauto|].
  intros [[= <- _]|H]; [lia|]. apply IH in H. lia.
Qed.

Lemma for_each_app {A : Type} (a b : list A) (body : A -> M unit) (r : AuditResults) :
  for_each (a ++ b) body r = bind (for_each a body) (fun _ => for_each b body) r.
Proof.
  revert r. induction a as [|x a IH]; intros r; cbn [app for_each]; [reflexivity|].
  unfold bind in *. destruct (body x r) as [[[]|e] r']; [apply IH | reflexivity].
Qed.

Lemma import_line_root (w : World) (p : Path) (i : Z) (line import_path : string)
    (r : AuditResults) :
  relative_import line = Some import_path ->
  name (import_target w p import_path) = "" ->
  exists e, import_line w p (i, line) r = (Raise e, r).
Proof.
  intros Hline Hn. rewrite import_line_eq, Hline.
  unfold possible_files_of, with_suffix. cbn zeta. rewrite Hn.
  cbn [String.eqb]. eexists. reflexivity.
Qed.

Lemma import_line_emits (w : World) (p : Path) (n i : Z) (line : string) :
  i <= n -> emits (fun issue => line_number issue <= n) (import_line w p (i, line)).
Proof.
  intros Hi. rewrite import_line_eq.
  destruct (relative_import line) as [ip|]; [|apply emits_ret].
  apply emits_bind; [apply emits_lift|]. intros files.
  apply emits_when, emits_of_ok, ok_add_issue. exact Hi.
Qed.

(** X16. An import that climbs to the root directory ends the check of its
    file without a report: every issue [_check_file_imports] reports for the
    file is about a line before that import, so a missing import after it
    goes unreported. *)
Theorem root_import_silences_rest (w : World) (p : Path) (content : string)
    (before after : list string) (bad import_path : string) :
  read_text w p = Ret content ->
  split_lines content = (before ++ bad :: after)%list ->
  relative_import bad = Some import_path ->
  name (import_target w p import_path) = "" ->
  exists l : list Issue,
    (forall r, _check_file_imports w p r = (Ret tt, add_issues l r)) /\
    Forall (fun issue => line_number issue <= Z.of_nat (List.length before)) l.
Proof.
  intros Hread Hsplit Hbad Hroot.
  assert (Hloop : emits (fun issue => line_number issue <= Z.of_nat (List.length before))
                        (for_each (enumerate 1 before) (import_line w p))).
  { apply emits_for_each_in. intros [i line] Hin.
    apply import_line_emits. apply enumerate_below in Hin. lia. }
  destruct Hloop as (o & l & Hl & Hloop).
  exists l. split; [|exact Hl].
  intros r. rewrite check_file_imports_loop. unfold try_except.
  rewrite Hread, bind_lift_ret, Hsplit, enumerate_app, for_each_app.
  unfold bind. rewrite Hloop. destruct o as [[]|e]; [|reflexivity].
  cbn [enumerate for_each]. unfold bind.
  destruct (import_line_root w p (1 + Z.of_nat (List.length before)) bad import_path
              (add_issues l r) Hbad Hroot) as [e He].
  rewrite He. reflexivity.
Qed.

Lemma root_import_silences_rest_witness :
  exists l : list Issue,
    (forall r, _check_file_imports root_import_project (Path_of_str "/proj/a.ts") r
               = (Ret tt, add_issues l r)) /\
    Forall (fun issue => line_number issue <= Z.of_nat (List.length (@nil string))) l.
Proof.
  apply (root_import_silences_rest root_import_project (Path_of_str "/proj/a.ts")
           (lines_of ["import all from '../..';"; "import gone from './missing';"])
           [] ["import gone from './missing';"] "import all from '../..';" "../..");
    vm_compute; reflexivity.
Defined.

(** The same file without its first line: the missing import is reported. *)
Example missing_import_reported_alone :
  reported _check_import_export_issues root_import_project = [] /\
  map summary
    (reported _check_import_export_issues
       (mkWorld (Path_of_str "/proj") ["proj"]
          [ (["proj"], Dir);
            (["proj"; "a.ts"], File (Ret "import gone from './missing';")) ]
          (Ret (0, "")) sample_json_loads))
  = [("/proj/a.ts", 1, HIGH, "Imports", "Import path not found: ./missing")].
Proof. by_computation. Qed.

(** ** Files that cannot be read *)

(** X17. A file that cannot be read is skipped without a trace by the nine
    checks of single files that end in a bare except clause: they return
    normally and leave the results as they were.  The routes check and the
    tsconfig check report the failure instead, with a HIGH issue carrying
    the error message. *)
Theorem unreadable_file_is_skipped (w : World) (p : Path) (e : exn) (r : AuditResults) :
  read_text w p = Raise e ->
  Forall (fun check => check w p r = (Ret tt, r)) silent_file_checks /\
  _check_server_routes w p r =
  (Ret tt,
   add_issues [mkIssue (Path_str p) 0 HIGH "API Routes"
                       ("Failed to parse routes file: " ++ exn_msg e)
                       "Fix routes file syntax" ""] r) /\
  _check_tsconfig w p r = (Ret tt, add_issues [tsconfig_failure p e] r).
Proof.
  intros He. split; [|split].
  - unfold silent_file_checks.
    repeat (apply Forall_cons; [|]); try apply Forall_nil;
      unfold _check_file_imports, _check_react_component, _check_hooks_in_file,
        _check_types_in_file, _check_colors_in_css, _check_colors_in_tsx,
        _check_package_scripts, _check_env_vars_in_file, _check_quality_in_file,
        try_except, bind, lift;
      rewrite He; reflexivity.
  - unfold _check_server_routes, try_except, bind, lift. rewrite He. reflexivity.
  - unfold _check_tsconfig, try_except, bind, lift. rewrite He. reflexivity.
Qed.

Lemma unreadable_file_is_skipped_witness :
  Forall (fun check => check sample_project (Path_of_str "client/src/Bar") AuditResults_new
                       = (Ret tt, AuditResults_new)) silent_file_checks /\
  _check_server_routes sample_project (Path_of_str "client/src/Bar") AuditResults_new =
  (Ret tt,
   add_issues [mkIssue (Path_str (Path_of_str "client/src/Bar")) 0 HIGH "API Routes"
                       ("Failed to parse routes file: "
                        ++ exn_msg (mkExn "IsADirectoryError"
                                      "[Errno 21] Is a directory: 'client/src/Bar'"))
                       "Fix routes file syntax" ""] AuditResults_new) /\
  _check_tsconfig sample_project (Path_of_str "client/src/Bar") AuditResults_new =
  (Ret tt,
   add_issues [tsconfig_failure (Path_of_str "client/src/Bar")
                 (mkExn "IsADirectoryError" "[Errno 21] Is a directory: 'client/src/Bar'")]
              AuditResults_new).
Proof.
  apply (unreadable_file_is_skipped sample_project (Path_of_str "client/src/Bar")).
  vm_compute. reflexivity.
Defined.

(** ** Colours in style sheets, whatever the case *)










(** ** The order of the report *)

Lemma block_nil (lo hi : nat) : block lo hi [].
Proof. split; [exact I | constructor]. Qed.

Lemma block_of_category (c : string) (l : list Issue) :
  Forall (fun i => category i = c) l ->
  block (list_index c category_order) (list_index c category_order) l.
Proof.
  intros H. assert (R : Forall (fun i => category_rank i = list_index c category_order) l).
  { eapply Forall_impl; [|exact H]. intros i E. unfold category_rank. rewrite E. reflexivity. }
  clear H. split.
  - induction R as [|i l Hi Hl IH]; [exact I|]. split; [|exact IH].
    eapply Forall_impl; [|exact Hl]. intros j Hj. cbv beta in Hj. lia.
  - eapply Forall_impl; [|exact R]. intros i Hi. cbv beta in Hi. lia.
Qed.

Lemma block_app (a b c d : nat) (l1 l2 : list Issue) :
  block a b l1 -> block c d l2 -> (a <= b)%nat -> (b <= c)%nat -> (c <= d)%nat ->
  block a d (l1 ++ l2).
Proof.
  intros [S1 B1] [S2 B2] Hab Hbc Hcd. split.
  - induction l1 as [|i l1 IH]; [exact S2|].
    cbn [app in_category_order] in *. destruct S1 as [Hi S1].
    apply Forall_cons_iff in B1. destruct B1 as [Bi B1]. split; [|apply IH; assumption].
    apply Forall_app. split; [exact Hi|].
    eapply Forall_impl; [|exact B2]. intros j Hj. cbv beta in Hj. lia.
  - apply Forall_app. split; (eapply Forall_impl; [|eassumption]);
      intros i Hi; cbv beta in Hi; lia.
Qed.

Ltac cat_step :=
  match goal with
  | |- emits_ok _ (ret tt) => apply ok_ret
  | |- emits_ok _ (_add_issue _ _ _ _ _ _) => apply ok_add_issue; reflexivity
  | |- emits_ok _ (try_except _ _) => apply ok_try; [|intros ?]
  | |- emits_ok _ (for_each _ _) => apply ok_for_each; intros ?
  | |- emits_ok _ (when _ _) => apply ok_when
  | |- emits_ok _ (bind _ _) => apply ok_bind
  | |- emits _ (ret _) => apply emits_ret
  | |- emits _ (lift _) => apply emits_lift
  | |- emits _ (for_each _ _) => apply emits_for_each; intros ?
  | |- emits _ (when _ _) => apply emits_when
  | |- emits _ (bind _ _) => apply emits_bind; [|intros ?]
  | |- emits _ (_add_issue _ _ _ _ _ _) => apply emits_of_ok
  | |- emits _ (try_except _ _) => apply emits_of_ok
  | |- _ (if ?c then _ else _) => destruct c
  | |- _ (match ?x with _ => _ end) => destruct x
  | |- _ (let '(_, _) := ?x in _) => destruct x
  end.

Ltac cat := repeat cat_step.

Section ChecksInOrder.
Variable w : World.

Lemma cat_for_typescript_files (c : string) (body : Path -> M unit) :
  (forall p, emits_ok (fun i => category i = c) (body p)) ->
  emits_ok (fun i => category i = c) (for_typescript_files w body).
Proof. intros H. unfold for_typescript_files. cat. apply H. Qed.

Lemma reported_block (c : string) (check : World -> M unit) :
  emits_ok (fun i => category i = c) (check w) ->
  block (list_index c category_order) (list_index c category_order) (reported check w).
Proof.
  intros (l & Hl & Hc). unfold reported. rewrite Hc.
  unfold add_issues, AuditResults_new. cbn [issues set_issues app].
  apply block_of_category. exact Hl.
Qed.

Lemma routes_block : block 3 4 (reported _check_api_route_consistency w).
Proof.
  assert (H1 : emits_ok (fun i => category i = "API Routes")
                 (when (Path_exists w (joinpath (joinpath (root_path w) (Path_of_str "server"))
                                                (Path_of_str "routes.ts")))
                       (_check_server_routes w
                          (joinpath (joinpath (root_path w) (Path_of_str "server"))
                                    (Path_of_str "routes.ts"))))).
  { unfold _check_server_routes. cat. }
  assert (H2 : emits_ok (fun i => category i = "API Calls") (_check_client_api_calls w)).
  { unfold _check_client_api_calls. cat. }
  destruct H1 as (l1 & Hl1 & E1). destruct H2 as (l2 & Hl2 & E2).
  unfold reported, _check_api_route_consistency. cbv zeta. unfold bind.
  rewrite E1, E2. unfold add_issues, AuditResults_new. cbn [issues set_issues app].
  apply (block_app 3 3 4 4); try lia.
  - apply (block_of_category "API Routes"). exact Hl1.
  - apply (block_of_category "API Calls"). exact Hl2.
Qed.

Lemma all_reported_block : block 0 13 (all_reported w).
Proof.
  unfold all_reported, rule_checks. cbn [flat_map].
  apply (block_app 0 0 1 13); try lia.
  { apply (reported_block "TypeScript").
    unfold _check_typescript_compilation, _parse_typescript_error. cat. }
  apply (block_app 1 1 2 13); try lia.
  { apply (reported_block "Dependencies"). unfold _check_missing_dependencies. cat. }
  apply (block_app 2 2 3 13); try lia.
  { apply (reported_block "Database"). unfold _check_database_schema_consistency. cat. }
  apply (block_app 3 4 5 13); try lia.
  { apply routes_block. }
  apply (block_app 5 5 6 13); try lia.
  { apply (reported_block "Imports"). apply cat_for_typescript_files. intros p.
    unfold _check_file_imports. cat. }
  apply (block_app 6 6 7 13); try lia.
  { apply (reported_block "React").
    unfold _check_component_structure, _check_react_component. cat. }
  apply (block_app 7 7 8 13); try lia.
  { apply (reported_block "React Hooks").
    unfold _check_react_hooks_usage, _check_hooks_in_file. cat. }
  apply (block_app 8 8 9 13); try lia.
  { apply (reported_block "Type Safety"). apply cat_for_typescript_files. intros p.
    unfold _check_types_in_file. cat. }
  apply (block_app 9 9 10 13); try lia.
  { apply (reported_block "Brand Colors"). unfold _check_brand_color_compliance.
    apply ok_bind.
    - unfold _check_colors_in_css. cat.
    - apply cat_for_typescript_files. intros p. unfold _check_colors_in_tsx. cat. }
  apply (block_app 10 10 11 13); try lia.
  { apply (reported_block "Configuration").
    unfold _check_configuration_files, _check_tsconfig, _check_package_scripts. cat. }
  apply (block_app 11 11 12 13); try lia.
  { apply (reported_block "Environment"). apply cat_for_typescript_files. intros p.
    unfold _check_env_vars_in_file. cat. }
  apply (block_app 12 12 13 13); try lia.
  { apply (reported_block "Code Quality"). apply cat_for_typescript_files. intros p.
    unfold _check_quality_in_file. cat. }
  apply (block_app 13 13 13 13); try lia.
  { apply (reported_block "Documentation"). unfold _check_documentation. cat. }
  apply block_nil.
Qed.

End ChecksInOrder.

Lemma list_index_in (c : string) (l : list string) :
  (list_index c l < List.length l)%nat -> In c l.
Proof.
  induction l as [|x l IH]; cbn [list_index List.length In]; [lia|].
  destruct (String.eqb_spec x c) as [E|_]; [left; exact E|].
  intros H. right. apply IH. lia.
Qed.

(** X19. The issue list of a run is grouped by category, in the order in
    which the checks run: no issue comes before an issue of a category that
    stands earlier in [category_order], so the issues of one category are
    adjacent; and every issue has one of these fourteen categories. *)
Theorem report_follows_check_order (w : World) :
  in_category_order (issues (run_result w)) /\
  Forall (fun i => In (category i) category_order) (issues (run_result w)).
Proof.
  rewrite issues_run_result. destruct (all_reported_block w) as [S B]. split; [exact S|].
  eapply Forall_impl; [|exact B]. intros i Hi. cbv beta in Hi.
  apply list_index_in. unfold category_rank in Hi. cbn [category_order List.length] in *. lia.
Qed.

(** ** Line numbers *)

Lemma emits_read (P : Issue -> Prop) {A B : Type} (a : A) (k : A -> M B) :
  emits P (k a) -> emits P (bind (lift (Ret a)) k).
Proof. intros (o & l & Hl & H). exists o, l. split; [exact Hl | exact H]. Qed.

Ltac line_step :=
  match goal with
  | |- emits_ok _ (ret tt) => apply ok_ret
  | |- emits_ok _ (_add_issue _ _ _ _ _ _) =>
      apply ok_add_issue; split; [reflexivity | cbn [line_number]; lia]
  | |- emits_ok _ (for_each _ _) => apply ok_for_each; intros ?
  | |- emits_ok _ (when _ _) => apply ok_when
  | |- emits_ok _ (bind _ _) => apply ok_bind
  | |- emits _ (ret _) => apply emits_ret
  | |- emits _ (lift _) => apply emits_lift
  | |- emits _ (for_each (enumerate _ _) _) =>
      let x := fresh "x" in let H := fresh "Hin" in
      apply emits_for_each_in; intros x H; destruct x;
      pose proof (enumerate_from _ _ _ _ H); apply enumerate_below in H;
      cbn beta iota
  | |- emits _ (for_each _ _) => apply emits_for_each; intros ?
  | |- emits _ (when _ _) => apply emits_when
  | |- emits _ (bind _ _) => apply emits_bind; [|intros ?]
  | |- emits _ (_add_issue _ _ _ _ _ _) => apply emits_of_ok
  | |- _ (if ?c then _ else _) => destruct c
  | |- _ (match ?x with _ => _ end) => destruct x
  end.

Ltac line_check Hread :=
  apply ok_try; [rewrite Hread; apply emits_read; cbv zeta; repeat line_step
                | intros ?; apply ok_ret].

(** X20. The checks that go through a file line by line report only that
    file and only lines it has: for a readable file each of them returns
    normally, and every issue it adds carries the path of the file and a
    line number between 1 and the number of lines of its text. *)
Theorem line_numbers_within_file (w : World) (p : Path) (content : string) :
  read_text w p = Ret content ->
  Forall (fun check => emits_ok (in_file p content) (check w p)) line_checks.
Proof.
  intros Hread. unfold line_checks, in_file. repeat constructor.
  - unfold _check_file_imports. line_check Hread.
  - unfold _check_hooks_in_file. line_check Hread.
  - unfold _check_types_in_file. line_check Hread.
  - unfold _check_colors_in_css. line_check Hread.
  - unfold _check_quality_in_file. line_check Hread.
Qed.

Lemma line_numbers_within_file_witness :
  Forall (fun check =>
            emits_ok (in_file (Path_of_str "/proj/src/a.ts")
                              "import { x } from './foo.service';")
                     (check renamed_import_project (Path_of_str "/proj/src/a.ts")))
         line_checks.
Proof.
  apply (line_numbers_within_file renamed_import_project (Path_of_str "/proj/src/a.ts")).
  vm_compute. reflexivity.
Defined.

(** ** The pass rate as a share *)




(** One CRITICAL issue alone scores 0; two LOW findings more lift the score
    to two thirds of 100. *)
Example findings_dilute_the_score :
  (pass_rate (calculate_results (collected [one_critical])) == 0)%Q /\
  (pass_rate (calculate_results (collected [one_critical; one_low; one_low])) == 200 # 3)%Q.
Proof. split; vm_compute; reflexivity. Qed.
